(** * The CFStream endpoint of gRPC (src/core/lib/iomgr/endpoint_cfstream.cc)

    A shallow embedding of the endpoint's functions as programs of a small
    state-and-fault monad over a [World]: the endpoint object, the caller's
    slice buffers it points to, the two transport streams, the requests that
    are outstanding at the collaborators (slice allocator, stream notifier,
    timer) and the trace of the calls the endpoint makes on them.  Every
    trace entry carries a snapshot of the endpoint's fields taken at the
    moment of the call, so that "X is cleared before Y is scheduled" is a
    statement about the snapshot stored with Y.

    Not modelled: [gpr_log] lines and the [grpc_tcp_trace] dumps that read
    the live endpoint and change nothing, and the poll-set functions, which
    are empty in the source.  The dump at the end of [WriteAction] is
    modelled, since it reads the endpoint after the reference has been
    released. *)

From stdpp Require Import base numbers list strings gmap.
From Stdlib.Strings Require Import Byte.

Local Open Scope Z_scope.

(** ** Slices and slice buffers *)

(** A [grpc_slice] is the sequence of its bytes; a [grpc_slice_buffer] is
    the sequence [slices[0 .. count)]. *)
Abbreviation grpc_slice := (list byte) (only parsing).
Abbreviation grpc_slice_buffer := (list (list byte)) (only parsing).

(** [sb->count] *)
Definition sb_count (sb : grpc_slice_buffer) : nat := length sb.

(** [sb->length]: the number of bytes held, over all slices. *)
Definition sb_length (sb : grpc_slice_buffer) : nat := length (concat sb).

(** Modelled from the spec: [grpc_slice_sub(s, b, e)] (slice library, not
    under src/): the bytes of [s] from offset [b] up to [e], "the
    untransferred remainder" when [b] is the number of bytes written and [e]
    the slice's length. *)
Definition grpc_slice_sub (s : grpc_slice) (b e : nat) : grpc_slice :=
  take (e - b)%nat (drop b s).

(** Modelled from the spec: [grpc_slice_buffer_trim_end(sb, n, nullptr)]
    (slice library, not under src/): "trim the destination buffer", [n] bytes
    are removed from the end, whole slices first and then the tail of the
    slice the cut falls in.  Here on the reversed slice list. *)
Fixpoint trim_end_rev (n : nat) (rsb : grpc_slice_buffer) : grpc_slice_buffer :=
  match rsb with
  | [] => []
  | s :: rest =>
      if (n <? length s)%nat then take (length s - n)%nat s :: rest
      else if (n =? length s)%nat then rest
      else trim_end_rev (n - length s)%nat rest
  end.

Definition slice_buffer_trim_end (n : nat) (sb : grpc_slice_buffer) : grpc_slice_buffer :=
  rev (trim_end_rev n (rev sb)).

(** The first [n] bytes of [l], for a byte count [n] of the C type
    [CFIndex]; recursion on the list, so that a large [n] costs nothing. *)
Fixpoint take_upto (n : Z) (l : list byte) : list byte :=
  match l with
  | [] => []
  | b :: t => if 0 <? n then b :: take_upto (n - 1) t else []
  end.

Fixpoint drop_upto (n : Z) (l : list byte) : list byte :=
  match l with
  | [] => []
  | b :: t => if 0 <? n then drop_upto (n - 1) t else l
  end.

(** ** Errors *)

(** A [CFErrorRef] of the platform. *)
Record CFError := { cf_domain : string; cf_code : Z }.

Inductive grpc_error_ints :=
| GRPC_ERROR_INT_GRPC_STATUS
| GRPC_ERROR_INT_OTHER (k : nat).

Inductive grpc_error_strs :=
| GRPC_ERROR_STR_TARGET_ADDRESS
| GRPC_ERROR_STR_OTHER (k : nat).

#[global] Instance grpc_error_ints_eq_dec : EqDecision grpc_error_ints.
Proof. solve_decision. Defined.

#[global] Instance grpc_error_strs_eq_dec : EqDecision grpc_error_strs.
Proof. solve_decision. Defined.

(** An error object: its description, the platform error it was created
    from, and the integer and string annotations set on it (latest first). *)
Record grpc_error_obj := {
  err_desc : string;
  err_cause : option CFError;
  err_ints : list (grpc_error_ints * Z);
  err_strs : list (grpc_error_strs * string);
}.

(** A [grpc_error*]; [None] is [GRPC_ERROR_NONE]. *)
Abbreviation grpc_error := (option grpc_error_obj) (only parsing).

Definition GRPC_ERROR_CREATE_FROM_STATIC_STRING (desc : string) : grpc_error_obj :=
  {| err_desc := desc; err_cause := None; err_ints := []; err_strs := [] |}.

Definition GRPC_ERROR_CREATE_FROM_CFERROR (cf : CFError) (desc : string) : grpc_error_obj :=
  {| err_desc := desc; err_cause := Some cf; err_ints := []; err_strs := [] |}.

(** Modelled from the spec: [grpc_error_set_int] and [grpc_error_set_str]
    (error library, not under src/): the error "annotated" with one more
    integer or string property. *)
Definition grpc_error_set_int (e : grpc_error_obj) (k : grpc_error_ints) (v : Z) : grpc_error_obj :=
  {| err_desc := err_desc e; err_cause := err_cause e;
     err_ints := (k, v) :: err_ints e; err_strs := err_strs e |}.

Definition grpc_error_set_str (e : grpc_error_obj) (k : grpc_error_strs) (v : string) : grpc_error_obj :=
  {| err_desc := err_desc e; err_cause := err_cause e;
     err_ints := err_ints e; err_strs := (k, v) :: err_strs e |}.

Fixpoint assoc_find {K V} `{EqDecision K} (k : K) (l : list (K * V)) : option V :=
  match l with
  | [] => None
  | (k', v) :: t => if decide (k = k') then Some v else assoc_find k t
  end.

Definition grpc_error_get_int (e : grpc_error_obj) (k : grpc_error_ints) : option Z :=
  assoc_find k (err_ints e).

Definition grpc_error_get_str (e : grpc_error_obj) (k : grpc_error_strs) : option string :=
  assoc_find k (err_strs e).

(** The error a cancelled timer hands to its closure. *)
Definition GRPC_ERROR_CANCELLED : grpc_error_obj :=
  GRPC_ERROR_CREATE_FROM_STATIC_STRING "Cancelled".

(** ** The endpoint object *)

(** A [grpc_resource_user*]: the accounting context made by
    [grpc_resource_user_create(resource_quota, name)]. *)
Record grpc_resource_user := { ru_quota : positive; ru_name : string }.

(** [CFStreamEndpoint].  Pointers to the caller's closures and slice buffers
    are addresses ([positive]), [None] is [nullptr]; the stream and notifier
    fields are the handles given to the constructor.  [read_action],
    [write_action] and [slice_allocator] are fixed closures over the
    endpoint itself and have no field here; [mu_held] is the state of [mu]. *)
Record CFStreamEndpoint := {
  refcount : Z;
  read_stream : positive;
  write_stream : positive;
  stream_sync : positive;
  read_cb : option positive;
  write_cb : option positive;
  read_slices : option positive;
  write_slices : option positive;
  peer_string : string;
  resource_user : grpc_resource_user;
  mu_held : bool;
  timer_armed : bool;
  total_bytes_read : Z;
}.

Definition set_refcount (v : Z) (e : CFStreamEndpoint) : CFStreamEndpoint :=
  {| refcount := v; read_stream := read_stream e; write_stream := write_stream e;
     stream_sync := stream_sync e; read_cb := read_cb e; write_cb := write_cb e;
     read_slices := read_slices e; write_slices := write_slices e;
     peer_string := peer_string e; resource_user := resource_user e;
     mu_held := mu_held e; timer_armed := timer_armed e;
     total_bytes_read := total_bytes_read e |}.

Definition set_read_cb (v : option positive) (e : CFStreamEndpoint) : CFStreamEndpoint :=
  {| refcount := refcount e; read_stream := read_stream e; write_stream := write_stream e;
     stream_sync := stream_sync e; read_cb := v; write_cb := write_cb e;
     read_slices := read_slices e; write_slices := write_slices e;
     peer_string := peer_string e; resource_user := resource_user e;
     mu_held := mu_held e; timer_armed := timer_armed e;
     total_bytes_read := total_bytes_read e |}.

Definition set_write_cb (v : option positive) (e : CFStreamEndpoint) : CFStreamEndpoint :=
  {| refcount := refcount e; read_stream := read_stream e; write_stream := write_stream e;
     stream_sync := stream_sync e; read_cb := read_cb e; write_cb := v;
     read_slices := read_slices e; write_slices := write_slices e;
     peer_string := peer_string e; resource_user := resource_user e;
     mu_held := mu_held e; timer_armed := timer_armed e;
     total_bytes_read := total_bytes_read e |}.

Definition set_read_slices (v : option positive) (e : CFStreamEndpoint) : CFStreamEndpoint :=
  {| refcount := refcount e; read_stream := read_stream e; write_stream := write_stream e;
     stream_sync := stream_sync e; read_cb := read_cb e; write_cb := write_cb e;
     read_slices := v; write_slices := write_slices e;
     peer_string := peer_string e; resource_user := resource_user e;
     mu_held := mu_held e; timer_armed := timer_armed e;
     total_bytes_read := total_bytes_read e |}.

Definition set_write_slices (v : option positive) (e : CFStreamEndpoint) : CFStreamEndpoint :=
  {| refcount := refcount e; read_stream := read_stream e; write_stream := write_stream e;
     stream_sync := stream_sync e; read_cb := read_cb e; write_cb := write_cb e;
     read_slices := read_slices e; write_slices := v;
     peer_string := peer_string e; resource_user := resource_user e;
     mu_held := mu_held e; timer_armed := timer_armed e;
     total_bytes_read := total_bytes_read e |}.

Definition set_mu_held (v : bool) (e : CFStreamEndpoint) : CFStreamEndpoint :=
  {| refcount := refcount e; read_stream := read_stream e; write_stream := write_stream e;
     stream_sync := stream_sync e; read_cb := read_cb e; write_cb := write_cb e;
     read_slices := read_slices e; write_slices := write_slices e;
     peer_string := peer_string e; resource_user := resource_user e;
     mu_held := v; timer_armed := timer_armed e;
     total_bytes_read := total_bytes_read e |}.

Definition set_timer_armed (v : bool) (e : CFStreamEndpoint) : CFStreamEndpoint :=
  {| refcount := refcount e; read_stream := read_stream e; write_stream := write_stream e;
     stream_sync := stream_sync e; read_cb := read_cb e; write_cb := write_cb e;
     read_slices := read_slices e; write_slices := write_slices e;
     peer_string := peer_string e; resource_user := resource_user e;
     mu_held := mu_held e; timer_armed := v;
     total_bytes_read := total_bytes_read e |}.

Definition set_total_bytes_read (v : Z) (e : CFStreamEndpoint) : CFStreamEndpoint :=
  {| refcount := refcount e; read_stream := read_stream e; write_stream := write_stream e;
     stream_sync := stream_sync e; read_cb := read_cb e; write_cb := write_cb e;
     read_slices := read_slices e; write_slices := write_slices e;
     peer_string := peer_string e; resource_user := resource_user e;
     mu_held := mu_held e; timer_armed := timer_armed e;
     total_bytes_read := v |}.

(** ** The transport streams *)

(** What the read stream will answer to the next [CFReadStreamRead]: it is
    closed, it has failed (and [CFReadStreamCopyError] gives the error
    object, or [NULL]), or it holds the bytes that have arrived (none of
    them: the peer has closed in an orderly way). *)
Inductive ReadStream :=
| RSClosed
| RSFailed (err : option CFError)
| RSData (avail : list byte).

(** The write side: closed, failed, or ready to take up to [cap] bytes on
    the next [CFWriteStreamWrite]. *)
Inductive WriteMode :=
| WSClosed
| WSFailed (err : option CFError)
| WSAccept (cap : nat).

(** [ws_sent]: every byte the transport has accepted so far, in order. *)
Record WriteStream := { ws_mode : WriteMode; ws_sent : list byte }.

(** ** Calls on the collaborators *)

Inductive Event :=
| EvMuLock
| EvMuUnlock
| EvTimerInit (deadline : Z)
| EvTimerCancel
| EvClosureSched (cb : positive) (error : grpc_error)
| EvAllocSlices (size count : Z) (dest : option positive)
| EvNotifyOnRead
| EvNotifyOnWrite
| EvRunOnQueue
| EvHandleShutdown (why : grpc_error)
| EvHandleRef (h : positive)
| EvHandleUnref (h : positive)
| EvReadStreamRead (maxlen ret : Z)
| EvWriteStreamWrite (data : list byte) (ret : Z)
| EvReadStreamClose
| EvWriteStreamClose
| EvCFRetain (h : positive)
| EvCFRelease (h : positive)
| EvResourceUserCreate (quota : positive) (name : string)
| EvResourceUserShutdown
| EvResourceUserUnref
| EvSliceAllocatorInit
| EvStrdup (s : string)
| EvFreePeerString
| EvFreeEndpoint.

(** A call together with the endpoint's fields as they were when it was
    made. *)
Record Obs := { ev : Event; seen : CFStreamEndpoint }.

(** ** The world *)

(** [heap]: the caller's slice buffers by address.  [pend_alloc]: the
    destinations of the slice requests the allocator has not answered yet;
    [pend_readable], [pend_writable]: the one-shot registrations the notifier
    has not delivered yet; [timer_deadline]: the deadline of the running
    timer; [timer_cancelled]: the cancelled timers whose closure has not run
    yet.  [owner_live]: the caller has not called destroy (a ghost field,
    written by the driver only).  [trace]: latest call first. *)
Record World := {
  ep : CFStreamEndpoint;
  ep_freed : bool;
  heap : gmap positive (list (list byte));
  rstream : ReadStream;
  wstream : WriteStream;
  pend_alloc : list (option positive);
  pend_readable : nat;
  pend_writable : nat;
  timer_deadline : option Z;
  timer_cancelled : nat;
  owner_live : bool;
  trace : list Obs;
}.

Definition with_ep (f : CFStreamEndpoint -> CFStreamEndpoint) (w : World) : World :=
  {| ep := f (ep w); ep_freed := ep_freed w; heap := heap w; rstream := rstream w;
     wstream := wstream w; pend_alloc := pend_alloc w; pend_readable := pend_readable w;
     pend_writable := pend_writable w; timer_deadline := timer_deadline w;
     timer_cancelled := timer_cancelled w; owner_live := owner_live w; trace := trace w |}.

Definition with_freed (v : bool) (w : World) : World :=
  {| ep := ep w; ep_freed := v; heap := heap w; rstream := rstream w;
     wstream := wstream w; pend_alloc := pend_alloc w; pend_readable := pend_readable w;
     pend_writable := pend_writable w; timer_deadline := timer_deadline w;
     timer_cancelled := timer_cancelled w; owner_live := owner_live w; trace := trace w |}.

Definition with_heap (v : gmap positive (list (list byte))) (w : World) : World :=
  {| ep := ep w; ep_freed := ep_freed w; heap := v; rstream := rstream w;
     wstream := wstream w; pend_alloc := pend_alloc w; pend_readable := pend_readable w;
     pend_writable := pend_writable w; timer_deadline := timer_deadline w;
     timer_cancelled := timer_cancelled w; owner_live := owner_live w; trace := trace w |}.

Definition with_rstream (v : ReadStream) (w : World) : World :=
  {| ep := ep w; ep_freed := ep_freed w; heap := heap w; rstream := v;
     wstream := wstream w; pend_alloc := pend_alloc w; pend_readable := pend_readable w;
     pend_writable := pend_writable w; timer_deadline := timer_deadline w;
     timer_cancelled := timer_cancelled w; owner_live := owner_live w; trace := trace w |}.

Definition with_wstream (v : WriteStream) (w : World) : World :=
  {| ep := ep w; ep_freed := ep_freed w; heap := heap w; rstream := rstream w;
     wstream := v; pend_alloc := pend_alloc w; pend_readable := pend_readable w;
     pend_writable := pend_writable w; timer_deadline := timer_deadline w;
     timer_cancelled := timer_cancelled w; owner_live := owner_live w; trace := trace w |}.

Definition with_pend_alloc (v : list (option positive)) (w : World) : World :=
  {| ep := ep w; ep_freed := ep_freed w; heap := heap w; rstream := rstream w;
     wstream := wstream w; pend_alloc := v; pend_readable := pend_readable w;
     pend_writable := pend_writable w; timer_deadline := timer_deadline w;
     timer_cancelled := timer_cancelled w; owner_live := owner_live w; trace := trace w |}.

Definition with_pend_readable (v : nat) (w : World) : World :=
  {| ep := ep w; ep_freed := ep_freed w; heap := heap w; rstream := rstream w;
     wstream := wstream w; pend_alloc := pend_alloc w; pend_readable := v;
     pend_writable := pend_writable w; timer_deadline := timer_deadline w;
     timer_cancelled := timer_cancelled w; owner_live := owner_live w; trace := trace w |}.

Definition with_pend_writable (v : nat) (w : World) : World :=
  {| ep := ep w; ep_freed := ep_freed w; heap := heap w; rstream := rstream w;
     wstream := wstream w; pend_alloc := pend_alloc w; pend_readable := pend_readable w;
     pend_writable := v; timer_deadline := timer_deadline w;
     timer_cancelled := timer_cancelled w; owner_live := owner_live w; trace := trace w |}.

Definition with_timer (d : option Z) (c : nat) (w : World) : World :=
  {| ep := ep w; ep_freed := ep_freed w; heap := heap w; rstream := rstream w;
     wstream := wstream w; pend_alloc := pend_alloc w; pend_readable := pend_readable w;
     pend_writable := pend_writable w; timer_deadline := d;
     timer_cancelled := c; owner_live := owner_live w; trace := trace w |}.

Definition with_owner_live (v : bool) (w : World) : World :=
  {| ep := ep w; ep_freed := ep_freed w; heap := heap w; rstream := rstream w;
     wstream := wstream w; pend_alloc := pend_alloc w; pend_readable := pend_readable w;
     pend_writable := pend_writable w; timer_deadline := timer_deadline w;
     timer_cancelled := timer_cancelled w; owner_live := v; trace := trace w |}.

Definition with_trace (v : list Obs) (w : World) : World :=
  {| ep := ep w; ep_freed := ep_freed w; heap := heap w; rstream := rstream w;
     wstream := wstream w; pend_alloc := pend_alloc w; pend_readable := pend_readable w;
     pend_writable := pend_writable w; timer_deadline := timer_deadline w;
     timer_cancelled := timer_cancelled w; owner_live := owner_live w; trace := v |}.

(** ** The monad: state, and the ways the process stops *)

Inductive Fault :=
| AssertFailed    (* a GPR_ASSERT that does not hold: the process aborts *)
| ProcessAbort    (* abort() *)
| UseAfterFree    (* a field of the endpoint accessed after gpr_free(ep) *)
| NullDeref.      (* a slice buffer accessed through nullptr or a dangling address *)

Inductive Res (A : Type) :=
| Ok (a : A) (w : World)
| Halt (f : Fault) (w : World).

Arguments Ok {A} a w.
Arguments Halt {A} f w.

Definition M (A : Type) : Type := World -> Res A.

Definition ret {A} (a : A) : M A := fun w => Ok a w.

Definition bind {A B} (m : M A) (k : A -> M B) : M B :=
  fun w => match m w with
           | Ok a w' => k a w'
           | Halt f w' => Halt f w'
           end.

Notation "x <- m ;; k" := (bind m (fun x => k))
  (at level 100, m at next level, right associativity).
Notation "m ;; k" := (bind m (fun _ => k))
  (at level 100, right associativity).

(** The world a run ends in, whether it returned or stopped. *)
Definition final {A} (r : Res A) : World :=
  match r with Ok _ w => w | Halt _ w => w end.

Definition returned {A} (r : Res A) : bool :=
  match r with Ok _ _ => true | Halt _ _ => false end.

Definition halt {A} (f : Fault) : M A := fun w => Halt f w.

Definition GPR_ASSERT (b : bool) : M unit :=
  if b then ret tt else halt AssertFailed.

Definition abort : M unit := halt ProcessAbort.

(** Reading and writing the endpoint's fields; both go through the pointer
    [ep], which must not have been freed. *)
Definition get_ep : M CFStreamEndpoint :=
  fun w => if ep_freed w then Halt UseAfterFree w else Ok (ep w) w.

Definition modify_ep (f : CFStreamEndpoint -> CFStreamEndpoint) : M unit :=
  fun w => if ep_freed w then Halt UseAfterFree w else Ok tt (with_ep f w).

(** A call on a collaborator, recorded with what the endpoint looks like. *)
Definition emit (e : Event) : M unit :=
  fun w => Ok tt (with_trace ({| ev := e; seen := ep w |} :: trace w) w).

(** The calls of a trace, earliest first. *)
Definition history (w : World) : list Event := rev (map ev (trace w)).

(** The entries a run from [w] to [w'] has added, earliest first. *)
Definition added (w w' : World) : list Obs :=
  rev (take (length (trace w') - length (trace w))%nat (trace w')).

Definition events_added (w w' : World) : list Event := map ev (added w w').

Definition set_read_stream (v : positive) (e : CFStreamEndpoint) : CFStreamEndpoint :=
  {| refcount := refcount e; read_stream := v; write_stream := write_stream e;
     stream_sync := stream_sync e; read_cb := read_cb e; write_cb := write_cb e;
     read_slices := read_slices e; write_slices := write_slices e;
     peer_string := peer_string e; resource_user := resource_user e;
     mu_held := mu_held e; timer_armed := timer_armed e;
     total_bytes_read := total_bytes_read e |}.

Definition set_write_stream (v : positive) (e : CFStreamEndpoint) : CFStreamEndpoint :=
  {| refcount := refcount e; read_stream := read_stream e; write_stream := v;
     stream_sync := stream_sync e; read_cb := read_cb e; write_cb := write_cb e;
     read_slices := read_slices e; write_slices := write_slices e;
     peer_string := peer_string e; resource_user := resource_user e;
     mu_held := mu_held e; timer_armed := timer_armed e;
     total_bytes_read := total_bytes_read e |}.

Definition set_stream_sync (v : positive) (e : CFStreamEndpoint) : CFStreamEndpoint :=
  {| refcount := refcount e; read_stream := read_stream e; write_stream := write_stream e;
     stream_sync := v; read_cb := read_cb e; write_cb := write_cb e;
     read_slices := read_slices e; write_slices := write_slices e;
     peer_string := peer_string e; resource_user := resource_user e;
     mu_held := mu_held e; timer_armed := timer_armed e;
     total_bytes_read := total_bytes_read e |}.

Definition set_peer_string (v : string) (e : CFStreamEndpoint) : CFStreamEndpoint :=
  {| refcount := refcount e; read_stream := read_stream e; write_stream := write_stream e;
     stream_sync := stream_sync e; read_cb := read_cb e; write_cb := write_cb e;
     read_slices := read_slices e; write_slices := write_slices e;
     peer_string := v; resource_user := resource_user e;
     mu_held := mu_held e; timer_armed := timer_armed e;
     total_bytes_read := total_bytes_read e |}.

Definition set_resource_user (v : grpc_resource_user) (e : CFStreamEndpoint) : CFStreamEndpoint :=
  {| refcount := refcount e; read_stream := read_stream e; write_stream := write_stream e;
     stream_sync := stream_sync e; read_cb := read_cb e; write_cb := write_cb e;
     read_slices := read_slices e; write_slices := write_slices e;
     peer_string := peer_string e; resource_user := v;
     mu_held := mu_held e; timer_armed := timer_armed e;
     total_bytes_read := total_bytes_read e |}.

(** ** Primitives: the caller's slice buffers *)

Definition non_null {A} (p : option A) : bool :=
  match p with Some _ => true | None => false end.

Definition sb_load (p : option positive) : M grpc_slice_buffer :=
  fun w => match p with
           | None => Halt NullDeref w
           | Some a => match heap w !! a with
                       | Some sb => Ok sb w
                       | None => Halt NullDeref w
                       end
           end.

Definition sb_store (p : option positive) (sb : grpc_slice_buffer) : M unit :=
  fun w => match p with
           | None => Halt NullDeref w
           | Some a => Ok tt (with_heap (<[a := sb]> (heap w)) w)
           end.

(** Modelled from the spec: the slice-buffer operations the endpoint calls
    (slice library, not under src/): "resets the destination buffer sequence
    to empty" / "discard buffer"; "removes the first buffer region from the
    sequence", which the library guards with an assertion that there is one;
    "return the untransferred remainder to the front of the sequence"; "trim
    the destination buffer to the actual length transferred". *)
Definition grpc_slice_buffer_reset_and_unref_internal (p : option positive) : M unit :=
  _ <- sb_load p ;; sb_store p [].

Definition grpc_slice_buffer_take_first (p : option positive) : M grpc_slice :=
  sb <- sb_load p ;;
  match sb with
  | [] => halt AssertFailed
  | s :: rest => sb_store p rest ;; ret s
  end.

Definition grpc_slice_buffer_undo_take_first (p : option positive) (s : grpc_slice) : M unit :=
  sb <- sb_load p ;; sb_store p (s :: sb).

Definition grpc_slice_buffer_trim_end (p : option positive) (n : nat) : M unit :=
  sb <- sb_load p ;; sb_store p (slice_buffer_trim_end n sb).

(** The bytes a transfer has put at [GRPC_SLICE_START_PTR(slice)], where
    [slice] is [slices[0]] of the buffer at [p]: the slice shares its
    storage with the buffer's entry, so the entry now starts with [data]. *)
Definition slice_fill (p : option positive) (data : list byte) : M unit :=
  sb <- sb_load p ;;
  match sb with
  | [] => ret tt
  | s :: rest => sb_store p ((data ++ drop (length data) s) :: rest)
  end.

(** ** Primitives: the collaborators *)

(** Modelled from the spec: the closure scheduler, the timer, the stream
    notifier and the slice allocator (none under src/), by their invocation
    contracts: a scheduled closure runs later, once; a timer runs its closure
    without error when the deadline passes, and with an error when it was
    cancelled before; the notifier delivers one notification per
    registration; the allocator answers a request once, with a grant or a
    failure.  Each call is recorded, and the request it leaves outstanding
    is counted in the world. *)
Definition GRPC_CLOSURE_SCHED (cb : option positive) (error : grpc_error) : M unit :=
  match cb with
  | Some c => emit (EvClosureSched c error)
  | None => ret tt
  end.

(** [grpc_millis] is [int64_t]: a sum of two of them is taken in 64 bits,
    two's complement.  (An overflow of the signed sum is undefined in C++;
    the wrap-around is what the machine addition gives.  What is proved
    about the value of a deadline assumes that the sum is in range.) *)
Definition int64_wrap (z : Z) : Z := (z + 2 ^ 63) mod 2 ^ 64 - 2 ^ 63.

Definition grpc_millis_add (a b : Z) : Z := int64_wrap (a + b).

Arguments grpc_millis_add : simpl never.

Definition grpc_timer_init (deadline : Z) : M unit :=
  emit (EvTimerInit deadline) ;;
  fun w => Ok tt (with_timer (Some deadline) (timer_cancelled w) w).

Definition grpc_timer_cancel : M unit :=
  emit EvTimerCancel ;;
  fun w => match timer_deadline w with
           | Some _ => Ok tt (with_timer None (S (timer_cancelled w)) w)
           | None => Ok tt w
           end.

Definition NotifyOnRead : M unit :=
  emit EvNotifyOnRead ;;
  fun w => Ok tt (with_pend_readable (S (pend_readable w)) w).

Definition NotifyOnWrite : M unit :=
  emit EvNotifyOnWrite ;;
  fun w => Ok tt (with_pend_writable (S (pend_writable w)) w).

Definition grpc_resource_user_alloc_slices (size count : Z) (dest : option positive) : M unit :=
  emit (EvAllocSlices size count dest) ;;
  fun w => Ok tt (with_pend_alloc (pend_alloc w ++ [dest]) w).

(** ** Primitives: the transport *)

(** [CFReadStreamRead(stream, buf, maxlen)]: [-1] on a closed or failed
    stream, otherwise the number of bytes taken, at most [maxlen], and the
    bytes themselves. *)
Definition CFReadStreamRead (maxlen : Z) : M (Z * list byte) :=
  fun w => match rstream w with
           | RSData avail =>
               let data := take_upto maxlen avail in
               let n := Z.of_nat (length data) in
               (emit (EvReadStreamRead maxlen n) ;; ret (n, data))
                 (with_rstream (RSData (drop_upto maxlen avail)) w)
           | _ => (emit (EvReadStreamRead maxlen (-1)) ;; ret (-1, [])) w
           end.

Definition CFReadStreamCopyError : M (option CFError) :=
  fun w => match rstream w with
           | RSFailed err => Ok err w
           | _ => Ok None w
           end.

(** [CFWriteStreamWrite(stream, buf, len)] on the bytes [s] of the buffer. *)
Definition CFWriteStreamWrite (s : list byte) : M Z :=
  fun w => match ws_mode (wstream w) with
           | WSAccept cap =>
               let data := take cap s in
               let n := Z.of_nat (length data) in
               (emit (EvWriteStreamWrite data n) ;; ret n)
                 (with_wstream {| ws_mode := WSAccept cap;
                                  ws_sent := ws_sent (wstream w) ++ data |} w)
           | _ => (emit (EvWriteStreamWrite [] (-1)) ;; ret (-1)) w
           end.

Definition CFWriteStreamCopyError : M (option CFError) :=
  fun w => match ws_mode (wstream w) with
           | WSFailed err => Ok err w
           | _ => Ok None w
           end.

Definition CFReadStreamClose : M unit :=
  emit EvReadStreamClose ;;
  fun w => Ok tt (with_rstream RSClosed w).

Definition CFWriteStreamClose : M unit :=
  emit EvWriteStreamClose ;;
  fun w => Ok tt (with_wstream {| ws_mode := WSClosed; ws_sent := ws_sent (wstream w) |} w).

(** ** Primitives: the mutex and the reference count *)

(** The entry of [gpr_mu_lock] is recorded once the mutex is held and that
    of [gpr_mu_unlock] while it still is. *)
Definition gpr_mu_lock : M unit :=
  modify_ep (set_mu_held true) ;; emit EvMuLock.

Definition gpr_mu_unlock : M unit :=
  emit EvMuUnlock ;; modify_ep (set_mu_held false).

(** Modelled from the spec: [gpr_ref] and [gpr_unref] (not under src/):
    "atomic increment / decrement-and-maybe-free"; [gpr_unref] tells whether
    the count has reached zero. *)
Definition gpr_ref : M unit :=
  modify_ep (fun e => set_refcount (refcount e + 1) e).

Definition gpr_unref : M bool :=
  e <- get_ep ;;
  modify_ep (set_refcount (refcount e - 1)) ;;
  ret (refcount e - 1 =? 0).

(** ** The endpoint's functions *)

Section Endpoint.

(** Constants of headers that are not under src/. *)
Variable GRPC_TCP_DEFAULT_READ_SLICE_SIZE : Z.
Variable GRPC_DEFAULT_MAX_RECV_MESSAGE_LENGTH : Z.
Variable GRPC_STATUS_UNAVAILABLE : Z.

Definition CFStreamFree : M unit :=
  e <- get_ep ;;
  emit EvResourceUserUnref ;;
  emit (EvCFRelease (read_stream e)) ;;
  emit (EvCFRelease (write_stream e)) ;;
  emit (EvHandleUnref (stream_sync e)) ;;
  emit EvFreePeerString ;;
  emit EvFreeEndpoint ;;
  fun w => Ok tt (with_freed true w).

(** [EP_UNREF(ep, reason)] and [EP_REF(ep, reason)]; the reason is a tag
    for the log. *)
Definition CFStreamUnref : M unit :=
  z <- gpr_unref ;;
  if (z : bool) then CFStreamFree else ret tt.

Definition CFStreamRef : M unit := gpr_ref.

Definition CFStreamAnnotateError (src_error : grpc_error_obj) : M grpc_error_obj :=
  e <- get_ep ;;
  ret (grpc_error_set_str
         (grpc_error_set_int src_error GRPC_ERROR_INT_GRPC_STATUS GRPC_STATUS_UNAVAILABLE)
         GRPC_ERROR_STR_TARGET_ADDRESS
         (peer_string e)).

Definition CallReadCb (error : grpc_error) : M unit :=
  e <- get_ep ;;
  let cb := read_cb e in
  modify_ep (set_read_cb None) ;;
  modify_ep (set_read_slices None) ;;
  GRPC_CLOSURE_SCHED cb error.

Definition CallWriteCb (error : grpc_error) : M unit :=
  e <- get_ep ;;
  let cb := write_cb e in
  modify_ep (set_write_cb None) ;;
  modify_ep (set_write_slices None) ;;
  GRPC_CLOSURE_SCHED cb error.

Definition ReadAction (error : grpc_error) : M unit :=
  e <- get_ep ;;
  GPR_ASSERT (non_null (read_cb e)) ;;
  match error with
  | Some _ =>
      grpc_slice_buffer_reset_and_unref_internal (read_slices e) ;;
      CallReadCb error ;;
      CFStreamUnref
  | None =>
      sb <- sb_load (read_slices e) ;;
      GPR_ASSERT (sb_count sb =? 1)%nat ;;
      let slice := hd [] sb in
      let len := length slice in
      r <- CFReadStreamRead (Z.of_nat len) ;;
      let read_size := fst r in
      slice_fill (read_slices e) (snd r) ;;
      (if read_size =? -1 then
         grpc_slice_buffer_reset_and_unref_internal (read_slices e) ;;
         stream_error <- CFReadStreamCopyError ;;
         error <- match stream_error with
                  | Some cf =>
                      a <- CFStreamAnnotateError
                             (GRPC_ERROR_CREATE_FROM_CFERROR cf "Read error") ;;
                      ret (Some a)
                  | None => ret (Some (GRPC_ERROR_CREATE_FROM_STATIC_STRING "Read error"))
                  end ;;
         CallReadCb error ;;
         CFStreamUnref
       else if read_size =? 0 then
         grpc_slice_buffer_reset_and_unref_internal (read_slices e) ;;
         a <- CFStreamAnnotateError (GRPC_ERROR_CREATE_FROM_STATIC_STRING "Socket closed") ;;
         CallReadCb (Some a) ;;
         CFStreamUnref
       else
         e1 <- get_ep ;;
         modify_ep (set_total_bytes_read ((total_bytes_read e1 + read_size) mod 2 ^ 32)) ;;
         (if read_size <? Z.of_nat len
          then grpc_slice_buffer_trim_end (read_slices e) (len - Z.to_nat read_size)%nat
          else ret tt) ;;
         CallReadCb None ;;
         CFStreamUnref) ;;
      gpr_mu_lock ;;
      e2 <- get_ep ;;
      (if timer_armed e2
       then grpc_timer_cancel ;; modify_ep (set_timer_armed false)
       else ret tt) ;;
      gpr_mu_unlock
  end.

(** [tracing] is [grpc_tcp_trace.enabled()], a flag of the process.  Of the
    trace blocks, the one at the end of [WriteAction] comes after a
    release of the reference: it reads [ep->peer_string] for the log. *)
Definition WriteAction_tracing (tracing : bool) (error : grpc_error) : M unit :=
  e <- get_ep ;;
  GPR_ASSERT (non_null (write_cb e)) ;;
  match error with
  | Some _ =>
      grpc_slice_buffer_reset_and_unref_internal (write_slices e) ;;
      CallWriteCb error ;;
      CFStreamUnref
  | None =>
      slice <- grpc_slice_buffer_take_first (write_slices e) ;;
      let slice_len := length slice in
      write_size <- CFWriteStreamWrite slice ;;
      if write_size =? -1 then
        grpc_slice_buffer_reset_and_unref_internal (write_slices e) ;;
        stream_error <- CFWriteStreamCopyError ;;
        error <- match stream_error with
                 | Some cf =>
                     a <- CFStreamAnnotateError
                            (GRPC_ERROR_CREATE_FROM_CFERROR cf "write failed.") ;;
                     ret (Some a)
                 | None => ret (Some (GRPC_ERROR_CREATE_FROM_STATIC_STRING "write failed."))
                 end ;;
        CallWriteCb error ;;
        CFStreamUnref
      else
        (if write_size <? Z.of_nat slice_len
         then grpc_slice_buffer_undo_take_first (write_slices e)
                (grpc_slice_sub slice (Z.to_nat write_size) slice_len)
         else ret tt) ;;
        sb <- sb_load (write_slices e) ;;
        (if (0 <? sb_length sb)%nat
         then NotifyOnWrite
         else CallWriteCb None ;; CFStreamUnref) ;;
        if tracing then _ <- get_ep ;; ret tt else ret tt
  end.

(** The endpoint's [WriteAction] in a process that does not trace, which
    is what the runs below are about. *)
Definition WriteAction : grpc_error -> M unit := WriteAction_tracing false.

Definition CFStreamReadAllocationDone (error : grpc_error) : M unit :=
  match error with
  | None => _ <- get_ep ;; NotifyOnRead
  | Some _ =>
      e <- get_ep ;;
      grpc_slice_buffer_reset_and_unref_internal (read_slices e) ;;
      CallReadCb error ;;
      CFStreamUnref
  end.

Definition err_cb (error : grpc_error) : M unit :=
  match error with
  | Some _ => ret tt
  | None =>
      _ <- get_ep ;;
      _ <- CFReadStreamRead GRPC_DEFAULT_MAX_RECV_MESSAGE_LENGTH ;;
      gpr_mu_lock ;;
      modify_ep (set_timer_armed false) ;;
      gpr_mu_unlock ;;
      emit EvRunOnQueue ;;
      abort
  end.

Definition CFStreamRead (slices cb : positive) (now : Z) : M unit :=
  gpr_mu_lock ;;
  e <- get_ep ;;
  (if negb (timer_armed e)
   then grpc_timer_init (grpc_millis_add now (1000 * 60)) ;;
        modify_ep (set_timer_armed true)
   else ret tt) ;;
  gpr_mu_unlock ;;
  e1 <- get_ep ;;
  GPR_ASSERT (negb (non_null (read_cb e1))) ;;
  modify_ep (set_read_cb (Some cb)) ;;
  modify_ep (set_read_slices (Some slices)) ;;
  grpc_slice_buffer_reset_and_unref_internal (Some slices) ;;
  e2 <- get_ep ;;
  grpc_resource_user_alloc_slices GRPC_TCP_DEFAULT_READ_SLICE_SIZE 1 (read_slices e2) ;;
  CFStreamRef.

Definition CFStreamWrite (slices cb : positive) : M unit :=
  e <- get_ep ;;
  GPR_ASSERT (negb (non_null (write_cb e))) ;;
  modify_ep (set_write_cb (Some cb)) ;;
  modify_ep (set_write_slices (Some slices)) ;;
  CFStreamRef ;;
  NotifyOnWrite.

Definition CFStreamShutdown (why : grpc_error) : M unit :=
  gpr_mu_lock ;;
  e <- get_ep ;;
  (if timer_armed e
   then grpc_timer_cancel ;; modify_ep (set_timer_armed false)
   else ret tt) ;;
  gpr_mu_unlock ;;
  CFReadStreamClose ;;
  CFWriteStreamClose ;;
  emit (EvHandleShutdown why) ;;
  emit EvResourceUserShutdown.

Definition CFStreamDestroy : M unit := CFStreamUnref.

Definition CFStreamGetResourceUser : M grpc_resource_user :=
  e <- get_ep ;; ret (resource_user e).

Definition CFStreamGetPeer : M string :=
  e <- get_ep ;; emit (EvStrdup (peer_string e)) ;; ret (peer_string e).

(** [gpr_malloc(sizeof(CFStreamEndpoint))]: a live object whose fields hold
    whatever was there. *)
Definition gpr_malloc_endpoint : M unit :=
  fun w => Ok tt (with_freed false w).

Definition grpc_cfstream_endpoint_create
  (read_stream write_stream : positive) (peer_string : string)
  (resource_quota stream_sync : positive) : M unit :=
  gpr_malloc_endpoint ;;
  modify_ep (set_mu_held false) ;;
  modify_ep (set_timer_armed false) ;;
  modify_ep (set_total_bytes_read 0) ;;
  modify_ep (set_refcount 1) ;;
  modify_ep (set_read_stream read_stream) ;;
  modify_ep (set_write_stream write_stream) ;;
  emit (EvCFRetain read_stream) ;;
  emit (EvCFRetain write_stream) ;;
  modify_ep (set_stream_sync stream_sync) ;;
  emit (EvHandleRef stream_sync) ;;
  emit (EvStrdup peer_string) ;;
  modify_ep (set_peer_string peer_string) ;;
  modify_ep (set_read_cb None) ;;
  modify_ep (set_write_cb None) ;;
  modify_ep (set_read_slices None) ;;
  modify_ep (set_write_slices None) ;;
  emit (EvResourceUserCreate resource_quota peer_string) ;;
  modify_ep (set_resource_user {| ru_quota := resource_quota; ru_name := peer_string |}) ;;
  emit EvSliceAllocatorInit.

(** ** The endpoint among its collaborators *)

(** What can happen to an endpoint: its owner calls it (read and write with
    the address of a slice buffer, filled as the owner likes, and a
    closure), a collaborator answers a request that is outstanding (the
    allocator with a failure or with a slice put into the destination, the
    notifier with a notification, the timer by firing or, once cancelled, by
    running the closure with the cancellation error), or the transport
    changes what it will answer next. *)
Inductive Action :=
| ARead (slices : positive) (content : list (list byte)) (cb : positive) (now : Z)
| AWrite (slices : positive) (content : list (list byte)) (cb : positive)
| AShutdown (why : option grpc_error_obj)
| ADestroy
| DAllocDone (error : option grpc_error_obj) (granted : list byte)
| DReadable (error : option grpc_error_obj)
| DWritable (error : option grpc_error_obj)
| DTimerFired
| DTimerCancelled
| ETransportRead (rs : ReadStream)
| ETransportWrite (m : WriteMode).

Definition enabled (a : Action) (w : World) : bool :=
  match a with
  | ARead _ _ _ _ | AWrite _ _ _ | AShutdown _ | ADestroy => owner_live w
  | DAllocDone _ _ => (0 <? length (pend_alloc w))%nat
  | DReadable _ => (0 <? pend_readable w)%nat
  | DWritable _ => (0 <? pend_writable w)%nat
  | DTimerFired => non_null (timer_deadline w)
  | DTimerCancelled => (0 <? timer_cancelled w)%nat
  | ETransportRead _ | ETransportWrite _ => true
  end.

(** The allocator's answer: a grant appends the slice to the destination. *)
Definition alloc_answer (error : option grpc_error_obj) (granted : list byte) : M unit :=
  fun w => match pend_alloc w with
           | [] => Ok tt w
           | dest :: rest =>
               match error with
               | Some _ => Ok tt (with_pend_alloc rest w)
               | None => (sb <- sb_load dest ;; sb_store dest (sb ++ [granted]))
                           (with_pend_alloc rest w)
               end
           end.

Definition perform (a : Action) : M unit :=
  match a with
  | ARead slices content cb now =>
      sb_store (Some slices) content ;; CFStreamRead slices cb now
  | AWrite slices content cb =>
      sb_store (Some slices) content ;; CFStreamWrite slices cb
  | AShutdown why => CFStreamShutdown why
  | ADestroy =>
      (fun w => Ok tt (with_owner_live false w)) ;; CFStreamDestroy
  | DAllocDone error granted =>
      alloc_answer error granted ;; CFStreamReadAllocationDone error
  | DReadable error =>
      (fun w => Ok tt (with_pend_readable (pred (pend_readable w)) w)) ;;
      ReadAction error
  | DWritable error =>
      (fun w => Ok tt (with_pend_writable (pred (pend_writable w)) w)) ;;
      WriteAction error
  | DTimerFired =>
      (fun w => Ok tt (with_timer None (timer_cancelled w) w)) ;;
      err_cb None
  | DTimerCancelled =>
      (fun w => Ok tt (with_timer (timer_deadline w) (pred (timer_cancelled w)) w)) ;;
      err_cb (Some GRPC_ERROR_CANCELLED)
  | ETransportRead rs => fun w => Ok tt (with_rstream rs w)
  | ETransportWrite m =>
      fun w => Ok tt (with_wstream {| ws_mode := m; ws_sent := ws_sent (wstream w) |} w)
  end.

(** A run: the actions in turn, each enabled where it happens; a process
    that has stopped stays stopped. *)
Fixpoint run (acts : list Action) (w : World) : option (Res unit) :=
  match acts with
  | [] => Some (Ok tt w)
  | a :: rest =>
      if enabled a w then
        match perform a w with
        | Ok _ w' => run rest w'
        | Halt f w' => Some (Halt f w')
        end
      else None
  end.

(** The surroundings before there is an endpoint: [garbage] is what the
    memory [gpr_malloc] will return holds. *)
Definition before_create (garbage : CFStreamEndpoint)
  (h : gmap positive (list (list byte))) (rs : ReadStream) (ws : WriteStream) : World :=
  {| ep := garbage; ep_freed := true; heap := h; rstream := rs; wstream := ws;
     pend_alloc := []; pend_readable := 0; pend_writable := 0;
     timer_deadline := None; timer_cancelled := 0; owner_live := true; trace := [] |}.

Definition created (garbage : CFStreamEndpoint)
  (h : gmap positive (list (list byte))) (rs : ReadStream) (ws : WriteStream)
  (read_stream write_stream : positive) (peer_string : string)
  (resource_quota stream_sync : positive) : World :=
  final (grpc_cfstream_endpoint_create read_stream write_stream peer_string
           resource_quota stream_sync (before_create garbage h rs ws)).

Definition b2z (b : bool) : Z := if b then 1 else 0.

Definition b2n (b : bool) : nat := if b then 1%nat else 0%nat.

(** How often the closure [c] has been scheduled, and how often an
    operation was issued with it. *)
Definition is_sched (c : positive) (e : Event) : bool :=
  match e with
  | EvClosureSched c' _ => bool_decide (c' = c)
  | _ => false
  end.

Fixpoint sched_count (c : positive) (t : list Obs) : nat :=
  match t with
  | [] => 0%nat
  | o :: r => (b2n (is_sched c (ev o)) + sched_count c r)%nat
  end.

Definition issues (c : positive) (a : Action) : bool :=
  match a with
  | ARead _ _ cb _ | AWrite _ _ cb => bool_decide (cb = c)
  | _ => false
  end.

Fixpoint issued_count (c : positive) (acts : list Action) : nat :=
  match acts with
  | [] => 0%nat
  | a :: r => (b2n (issues c a) + issued_count c r)%nat
  end.

(** Whether a callback slot holds [c] now. *)
Definition holds (c : positive) (slot : option positive) : nat :=
  match slot with
  | Some c' => b2n (bool_decide (c' = c))
  | None => 0%nat
  end.

(** The closure [c]: the times it has been scheduled, and the slots it
    still waits in. *)
Definition scheduled_or_held (c : positive) (w : World) : nat :=
  (sched_count c (trace w) + holds c (read_cb (ep w)) + holds c (write_cb (ep w)))%nat.

(** The watchdog's closure runs that are still to come. *)
Definition timer_outstanding (w : World) : nat :=
  (b2n (non_null (timer_deadline w)) + timer_cancelled w)%nat.

(** The continuations of read and write operations that are still to come:
    answers of the allocator and notifications. *)
Definition read_outstanding (w : World) : nat :=
  (length (pend_alloc w) + pend_readable w)%nat.

Definition write_outstanding (w : World) : nat := pend_writable w.

(** Every reference is accounted for: the owner's, one for a read and one
    for a write in flight; a read is in flight while its slot is taken, and
    then exactly one answer of the allocator or one notification is still to
    come for it, likewise a write; and the endpoint is gone exactly when the
    count is zero. *)
Definition refs_accounted (w : World) : Prop :=
  refcount (ep w)
  = b2z (owner_live w) + Z.of_nat (read_outstanding w) + Z.of_nat (write_outstanding w)
  /\ read_outstanding w = b2n (non_null (read_cb (ep w)))
  /\ write_outstanding w = b2n (non_null (write_cb (ep w)))
  /\ (ep_freed w = true <-> refcount (ep w) = 0).

(** The notifications of a write that the transport takes in pieces: before
    each one the transport is ready for so many bytes. *)
Fixpoint write_notifications (caps : list nat) : list Action :=
  match caps with
  | [] => []
  | cap :: rest =>
      ETransportWrite (WSAccept cap) :: DWritable None :: write_notifications rest
  end.

(** The world after a run. *)
Definition after (acts : list Action) (w : World) : World :=
  match run acts w with
  | Some r => final r
  | None => w
  end.

(** For the examples: the stale values in the memory an endpoint is
    allocated in. *)
Definition ex_garbage : CFStreamEndpoint :=
  {| refcount := 77; read_stream := 9; write_stream := 9; stream_sync := 9;
     read_cb := Some 5%positive; write_cb := None;
     read_slices := None; write_slices := Some 4%positive;
     peer_string := "stale"; resource_user := {| ru_quota := 1; ru_name := "" |};
     mu_held := true; timer_armed := true; total_bytes_read := 12345 |}.

(** What a list of calls holds: the closures scheduled, with the error
    handed to each; the transfers attempted on the transport; the
    registrations made with the notifier. *)
Fixpoint scheduled (l : list Event) : list (positive * option grpc_error_obj) :=
  match l with
  | [] => []
  | EvClosureSched cb error :: r => (cb, error) :: scheduled r
  | _ :: r => scheduled r
  end.

Fixpoint transfer_attempts (l : list Event) : nat :=
  match l with
  | [] => 0%nat
  | EvReadStreamRead _ _ :: r | EvWriteStreamWrite _ _ :: r => S (transfer_attempts r)
  | _ :: r => transfer_attempts r
  end.

Fixpoint registrations (l : list Event) : nat :=
  match l with
  | [] => 0%nat
  | EvNotifyOnRead :: r | EvNotifyOnWrite :: r => S (registrations r)
  | _ :: r => registrations r
  end.

Fixpoint timer_cancels (l : list Event) : nat :=
  match l with
  | [] => 0%nat
  | EvTimerCancel :: r => S (timer_cancels r)
  | _ :: r => timer_cancels r
  end.

(** An error that carries the "unavailable" status and the peer. *)
Definition annotated (peer : string) (e : grpc_error_obj) : Prop :=
  grpc_error_get_int e GRPC_ERROR_INT_GRPC_STATUS = Some GRPC_STATUS_UNAVAILABLE
  /\ grpc_error_get_str e GRPC_ERROR_STR_TARGET_ADDRESS = Some peer.

(** ** Statements of the specification, as it words them *)

(** "Transfer reports partial bytes: trim the destination buffer to the
    actual length transferred, update the cumulative byte counter, invoke
    callback with success, release reference", with the counter going up by
    the number of bytes. *)
Definition read_success_as_specified : Prop :=
  forall (w : World) (cb p : positive) (slice avail : list byte),
    ep_freed w = false ->
    read_cb (ep w) = Some cb ->
    read_slices (ep w) = Some p ->
    heap w !! p = Some [slice] ->
    rstream w = RSData avail ->
    (0 < length slice `min` length avail)%nat ->
    let k := (length slice `min` length avail)%nat in
    let w' := final (ReadAction None w) in
    heap w' !! p = Some [take k avail]
    /\ total_bytes_read (ep w') = total_bytes_read (ep w) + Z.of_nat k
    /\ scheduled (events_added w w') = [(cb, None)]
    /\ refcount (ep w') = refcount (ep w) - 1.

(** "All recoverable errors are annotated with the peer description and a
    standard unavailable status classification before being delivered": the
    error of a failed transfer and that of the zero-byte read. *)
Definition transfer_errors_as_specified : Prop :=
  (forall (w : World) (cb p : positive) (slice : list byte),
      ep_freed w = false ->
      read_cb (ep w) = Some cb ->
      read_slices (ep w) = Some p ->
      heap w !! p = Some [slice] ->
      (exists err, rstream w = RSFailed err) \/ rstream w = RSData [] ->
      forall c e,
        (c, Some e) ∈ scheduled (events_added w (final (ReadAction None w))) ->
        annotated (peer_string (ep w)) e)
  /\ (forall (w : World) (cb p : positive) (slice : list byte) (rest : list (list byte)),
      ep_freed w = false ->
      write_cb (ep w) = Some cb ->
      write_slices (ep w) = Some p ->
      heap w !! p = Some (slice :: rest) ->
      (exists err, ws_mode (wstream w) = WSFailed err) ->
      forall c e,
        (c, Some e) ∈ scheduled (events_added w (final (WriteAction None w))) ->
        annotated (peer_string (ep w)) e).

(** "Every asynchronous continuation (buffer grant callback, notifier
    callback, timer callback) holds exactly one reference": the count is the
    owner's reference and one for each continuation that is still to come,
    and the endpoint is not freed while one is. *)
Definition every_continuation_holds_a_reference : Prop :=
  forall (garbage : CFStreamEndpoint)
    (h : gmap positive (list (list byte))) (rs : ReadStream) (ws : WriteStream)
    (rh wh : positive) (peer : string) (quota sync : positive)
    (acts : list Action) (w : World),
    run acts (created garbage h rs ws rh wh peer quota sync) = Some (Ok tt w) ->
    refcount (ep w)
    = b2z (owner_live w)
      + Z.of_nat (read_outstanding w + write_outstanding w + timer_outstanding w)
    /\ ((0 < read_outstanding w + write_outstanding w + timer_outstanding w)%nat ->
        ep_freed w = false).

(** "When a full region is transferred and the sequence is still non-empty,
    writable interest is re-registered without invoking the callback; the
    success callback is invoked exactly when the sequence becomes empty":
    after a notification in which the transport takes the whole first
    region, by whether regions are left. *)
Definition write_completion_as_specified : Prop :=
  forall (w : World) (cb p : positive) (s : list byte)
    (rest : list (list byte)) (cap : nat),
    ep_freed w = false ->
    write_cb (ep w) = Some cb ->
    write_slices (ep w) = Some p ->
    heap w !! p = Some (s :: rest) ->
    ws_mode (wstream w) = WSAccept cap ->
    (length s <= cap)%nat ->
    let w' := final (WriteAction None w) in
    (rest <> [] ->
     scheduled (events_added w w') = []
     /\ registrations (events_added w w') = 1%nat)
    /\ (rest = [] -> scheduled (events_added w w') = [(cb, None)]).

(** "If the watchdog timer callback is invoked with a non-null error, it
    returns immediately; thus a read that completes or a shutdown that
    occurs before the deadline can never trigger the fatal watchdog path":
    in a running process, once no read is pending no timer is left that
    could fire, and none is left after a shutdown. *)
Definition cancelled_watchdog_as_specified : Prop :=
  (forall (e : grpc_error_obj) (w : World), err_cb (Some e) w = Ok tt w)
  /\ forall (garbage : CFStreamEndpoint)
       (h : gmap positive (list (list byte))) (rs : ReadStream) (ws : WriteStream)
       (rh wh : positive) (peer : string) (quota sync : positive)
       (acts : list Action) (w : World),
       run acts (created garbage h rs ws rh wh peer quota sync) = Some (Ok tt w) ->
       (read_cb (ep w) = None -> enabled DTimerFired w = false)
       /\ (forall why, ep_freed w = false ->
             enabled DTimerFired (final (CFStreamShutdown why w)) = false).

(** ** What every call keeps *)


(** The fields that say which connection the endpoint stands for. *)
Definition connection_of (e : CFStreamEndpoint)
  : positive * positive * positive * string * grpc_resource_user :=
  (read_stream e, write_stream e, stream_sync e, peer_string e, resource_user e).

(** * Properties *)

(** ** Tools *)

Lemma grpc_millis_add_in_range (a b : Z) :
  - 2 ^ 63 <= a + b < 2 ^ 63 -> grpc_millis_add a b = a + b.
Proof.
  intros H. unfold grpc_millis_add, int64_wrap.
  rewrite Z.mod_small by lia. lia.
Qed.

Lemma added_app (w w' : World) (l : list Obs) :
  trace w' = l ++ trace w -> added w w' = rev l.
Proof.
  intros H. unfold added. rewrite H, length_app.
  replace (length l + length (trace w) - length (trace w))%nat with (length l) by lia.
  by rewrite take_app_length.
Qed.

Lemma take_upto_nat (n : nat) (l : list byte) : take_upto (Z.of_nat n) l = take n l.
Proof.
  revert n. induction l as [|b t IH]; intros [|n]; try reflexivity.
  cbn [take_upto]. replace (0 <? Z.of_nat (S n)) with true by (symmetry; apply Z.ltb_lt; lia).
  replace (Z.of_nat (S n) - 1) with (Z.of_nat n) by lia.
  by rewrite IH.
Qed.

Lemma drop_upto_nat (n : nat) (l : list byte) : drop_upto (Z.of_nat n) l = drop n l.
Proof.
  revert n. induction l as [|b t IH]; intros [|n]; try reflexivity.
  cbn [drop_upto]. replace (0 <? Z.of_nat (S n)) with true by (symmetry; apply Z.ltb_lt; lia).
  replace (Z.of_nat (S n) - 1) with (Z.of_nat n) by lia.
  by rewrite IH.
Qed.

(** A world taken apart into its fields, so that a program applied to it
    evaluates. *)
Ltac world_cases w :=
  destruct w as [[rc rst wst ssy rcb wcb rsl wsl peer ru mu armed total]
                   freed h rs ws pa pr pw td tc ol tr];
  cbn in *; subst.

Ltac world_cases_anon w :=
  destruct w as [[? ? ? ? ? ? ? ? ? ? ? ? ?] ? ? ? ? ? ? ? ? ? ? ?];
  cbn in *; subst.

Ltac trace_prefix t' t :=
  lazymatch t' with
  | t => constr:(@nil Obs)
  | ?o :: ?r => let p := trace_prefix r t in constr:(o :: p)
  end.

(** Replaces [added w w'] by the entries that [trace w'] has in front of
    [trace w]. *)
Ltac calc_added :=
  unfold events_added;
  repeat match goal with
  | |- context [added ?w ?w'] =>
      let t' := eval cbn in (trace w') in
      let t := eval cbn in (trace w) in
      let p := trace_prefix t' t in
      rewrite (added_app w w' p) by reflexivity
  end.

Ltac elem_cases H :=
  repeat (apply elem_of_cons in H as [H|H]; [subst | ]);
  [ .. | apply elem_of_nil in H; destruct H ].

Ltac model_unfold_in H :=
  cbv beta iota zeta delta
    [bind ret halt GPR_ASSERT abort get_ep modify_ep emit final returned
     sb_load sb_store grpc_slice_buffer_reset_and_unref_internal
     grpc_slice_buffer_take_first grpc_slice_buffer_undo_take_first
     grpc_slice_buffer_trim_end slice_fill GRPC_CLOSURE_SCHED
     grpc_timer_init grpc_timer_cancel NotifyOnRead NotifyOnWrite
     grpc_resource_user_alloc_slices CFReadStreamRead CFReadStreamCopyError
     CFWriteStreamWrite CFWriteStreamCopyError CFReadStreamClose
     CFWriteStreamClose gpr_mu_lock gpr_mu_unlock gpr_ref gpr_unref
     CFStreamFree CFStreamUnref CFStreamRef CFStreamAnnotateError
     CallReadCb CallWriteCb ReadAction WriteAction WriteAction_tracing
     CFStreamReadAllocationDone err_cb CFStreamRead CFStreamWrite
     CFStreamShutdown CFStreamDestroy gpr_malloc_endpoint
     grpc_cfstream_endpoint_create alloc_answer perform
     set_refcount set_read_cb set_write_cb set_read_slices set_write_slices
     set_mu_held set_timer_armed set_total_bytes_read set_read_stream
     set_write_stream set_stream_sync set_peer_string set_resource_user
     with_ep with_freed with_heap with_rstream with_wstream with_pend_alloc
     with_pend_readable with_pend_writable with_timer with_owner_live
     with_trace
     ep ep_freed heap rstream wstream pend_alloc pend_readable pend_writable
     timer_deadline timer_cancelled owner_live trace
     refcount read_stream write_stream stream_sync read_cb write_cb
     read_slices write_slices peer_string resource_user mu_held timer_armed
     total_bytes_read ev seen ws_mode ws_sent
     non_null negb fst snd hd sb_count] in H;
  cbn [length] in H.

Ltac model_unfold :=
  cbv beta iota zeta delta
    [bind ret halt GPR_ASSERT abort get_ep modify_ep emit final returned
     sb_load sb_store grpc_slice_buffer_reset_and_unref_internal
     grpc_slice_buffer_take_first grpc_slice_buffer_undo_take_first
     grpc_slice_buffer_trim_end slice_fill GRPC_CLOSURE_SCHED
     grpc_timer_init grpc_timer_cancel NotifyOnRead NotifyOnWrite
     grpc_resource_user_alloc_slices CFReadStreamRead CFReadStreamCopyError
     CFWriteStreamWrite CFWriteStreamCopyError CFReadStreamClose
     CFWriteStreamClose gpr_mu_lock gpr_mu_unlock gpr_ref gpr_unref
     CFStreamFree CFStreamUnref CFStreamRef CFStreamAnnotateError
     CallReadCb CallWriteCb ReadAction WriteAction WriteAction_tracing
     CFStreamReadAllocationDone err_cb CFStreamRead CFStreamWrite
     CFStreamShutdown CFStreamDestroy gpr_malloc_endpoint
     grpc_cfstream_endpoint_create alloc_answer perform
     set_refcount set_read_cb set_write_cb set_read_slices set_write_slices
     set_mu_held set_timer_armed set_total_bytes_read set_read_stream
     set_write_stream set_stream_sync set_peer_string set_resource_user
     with_ep with_freed with_heap with_rstream with_wstream with_pend_alloc
     with_pend_readable with_pend_writable with_timer with_owner_live
     with_trace
     ep ep_freed heap rstream wstream pend_alloc pend_readable pend_writable
     timer_deadline timer_cancelled owner_live trace
     refcount read_stream write_stream stream_sync read_cb write_cb
     read_slices write_slices peer_string resource_user mu_held timer_armed
     total_bytes_read ev seen ws_mode ws_sent
     non_null negb fst snd hd sb_count];
  cbn [length].

(** Evaluates the program in [H : r = program world], taking the known
    answers of the heap from the context and splitting on the tests that
    stay open; arithmetic tests that contradict the context are closed. *)
Ltac model_eval_in H :=
  repeat (model_unfold_in H;
    try rewrite take_upto_nat in H; try rewrite drop_upto_nat in H;
    try rewrite take_nil in H; try rewrite drop_nil in H;
    rewrite ?lookup_insert_eq in H;
    try match goal with
        | Hh : ?h !! ?p = _ |- _ => rewrite Hh in H
        end;
    cbn [length] in H;
    try match type of H with
        | context [match ?x with _ => _ end] => is_var x; destruct x
        | context [match ?h !! ?p with _ => _ end] => destruct (h !! p) eqn:?
        | context [Z.eqb ?a ?b] => destruct (Z.eqb_spec a b); try lia
        | context [Z.ltb ?a ?b] => destruct (Z.ltb_spec a b); try lia
        | context [Nat.eqb ?a ?b] => destruct (Nat.eqb_spec a b); try lia
        | context [Nat.ltb ?a ?b] => destruct (Nat.ltb_spec a b); try lia
        end).

(** Names the run in the goal and evaluates it. *)
Ltac model_eval :=
  match goal with
  | |- context [final ?t] =>
      let r := fresh "r" in let Hr := fresh "Hr" in
      remember t as r eqn:Hr; model_eval_in Hr; subst r; model_unfold
  end.

(** Names the run in a goal of the form [exists .., run = result /\ ..]. *)
Ltac name_run r Hr :=
  lazymatch goal with
  | |- ex (fun x => ?t = @?a x /\ @?b x) => remember t as r eqn:Hr
  | |- ex (fun x => ex (fun y => ?t = @?a x y /\ @?b x y)) => remember t as r eqn:Hr
  | |- ex (fun x => ex (fun y => ex (fun z => ?t = @?a x y z /\ @?b x y z))) =>
      remember t as r eqn:Hr
  end.

Ltac bool_cases :=
  repeat match goal with
         | |- context [bool_decide ?P] => destruct (bool_decide P)
         end.

(** ** Shutdown *)

(** C7. [CFStreamShutdown] on a live endpoint returns; it cancels the timer
    exactly when [timer_armed] was set, with the mutex held, and leaves the
    flag clear; it closes the read and the write stream, hands [why] to the
    notifier and shuts the resource user down, in this order.  The reference
    count, the callback slots, the buffer pointers, the byte counter and all
    other fields keep their values, the endpoint is not freed, and the
    caller's buffers and the outstanding requests are as before. *)
Theorem CFStreamShutdown_effects (why : option grpc_error_obj) (w : World) :
  ep_freed w = false ->
  exists w',
    CFStreamShutdown why w = Ok tt w'
    /\ events_added w w' =
         [EvMuLock] ++ (if timer_armed (ep w) then [EvTimerCancel] else [])
         ++ [EvMuUnlock; EvReadStreamClose; EvWriteStreamClose;
             EvHandleShutdown why; EvResourceUserShutdown]
    /\ (forall o, o ∈ added w w' -> ev o = EvTimerCancel ->
          mu_held (seen o) = true /\ timer_armed (seen o) = true)
    /\ (forall o, o ∈ added w w' -> ev o = EvMuUnlock ->
          mu_held (seen o) = true /\ timer_armed (seen o) = false)
    /\ ep w' = set_mu_held false (set_timer_armed false (ep w))
    /\ ep_freed w' = false
    /\ timer_deadline w' = (if timer_armed (ep w) then None else timer_deadline w)
    /\ rstream w' = RSClosed
    /\ wstream w' = {| ws_mode := WSClosed; ws_sent := ws_sent (wstream w) |}
    /\ heap w' = heap w
    /\ pend_alloc w' = pend_alloc w
    /\ pend_readable w' = pend_readable w
    /\ pend_writable w' = pend_writable w
    /\ owner_live w' = owner_live w.
Proof.
  intros Hlive. world_cases w.
  destruct armed; [destruct td|]; cbn.
  all: eexists; split; [reflexivity|]; calc_added; cbn.
  all: repeat lazymatch goal with |- _ /\ _ => split end; try reflexivity.
  all: intros o Ho He; elem_cases Ho; try discriminate He; split; reflexivity.
Qed.

(** ** Completion callbacks *)

Lemma CallReadCb_clears_then_schedules (error : option grpc_error_obj) (w : World) (cb : positive) :
  ep_freed w = false ->
  read_cb (ep w) = Some cb ->
  exists w',
    CallReadCb error w = Ok tt w'
    /\ added w w' =
         [{| ev := EvClosureSched cb error;
             seen := set_read_slices None (set_read_cb None (ep w)) |}]
    /\ ep w' = set_read_slices None (set_read_cb None (ep w)).
Proof.
  intros Hlive Hcb. world_cases w. model_unfold.
  eexists. split; [reflexivity|]. calc_added. by cbn.
Qed.

Lemma CallWriteCb_clears_then_schedules (error : option grpc_error_obj) (w : World) (cb : positive) :
  ep_freed w = false ->
  write_cb (ep w) = Some cb ->
  exists w',
    CallWriteCb error w = Ok tt w'
    /\ added w w' =
         [{| ev := EvClosureSched cb error;
             seen := set_write_slices None (set_write_cb None (ep w)) |}]
    /\ ep w' = set_write_slices None (set_write_cb None (ep w)).
Proof.
  intros Hlive Hcb. world_cases w. model_unfold.
  eexists. split; [reflexivity|]. calc_added. by cbn.
Qed.

(** One action schedules a closure only out of a slot, which it empties,
    and fills a slot only when it issues an operation. *)
Lemma perform_scheduled_or_held (c : positive) (a : Action) (w : World) :
  (scheduled_or_held c (final (perform a w))
   <= scheduled_or_held c w + b2n (issues c a))%nat.
Proof.
  destruct a; world_cases_anon w; try model_eval.
  all: unfold scheduled_or_held, final; cbn; bool_cases; cbn; lia.
Qed.

Lemma run_scheduled_or_held (c : positive) (acts : list Action) :
  forall (w : World) (r : Res unit),
    run acts w = Some r ->
    (scheduled_or_held c (final r) <= scheduled_or_held c w + issued_count c acts)%nat.
Proof.
  induction acts as [|a rest IH]; intros w r Hrun; cbn [run] in Hrun.
  - injection Hrun as <-. cbn [final issued_count]. lia.
  - destruct (enabled a w); [|discriminate].
    pose proof (perform_scheduled_or_held c a w) as Hstep.
    destruct (perform a w) as [[] w1|f w1] eqn:Hp; cbn [final] in Hstep.
    + apply IH in Hrun. cbn [issued_count]. lia.
    + injection Hrun as <-. cbn [issued_count final]. lia.
Qed.

Lemma created_world (garbage : CFStreamEndpoint)
  (h : gmap positive (list (list byte))) (rs : ReadStream) (ws : WriteStream)
  (rh wh : positive) (peer : string) (quota sync : positive) :
  exists t,
    grpc_cfstream_endpoint_create rh wh peer quota sync (before_create garbage h rs ws)
    = Ok tt
        {| ep := {| refcount := 1; read_stream := rh; write_stream := wh;
                    stream_sync := sync; read_cb := None; write_cb := None;
                    read_slices := None; write_slices := None;
                    peer_string := peer;
                    resource_user := {| ru_quota := quota; ru_name := peer |};
                    mu_held := false; timer_armed := false; total_bytes_read := 0 |};
           ep_freed := false; heap := h; rstream := rs; wstream := ws;
           pend_alloc := []; pend_readable := 0; pend_writable := 0;
           timer_deadline := None; timer_cancelled := 0; owner_live := true;
           trace := t |}
    /\ map ev (rev t) =
         [EvCFRetain rh; EvCFRetain wh; EvHandleRef sync; EvStrdup peer;
          EvResourceUserCreate quota peer; EvSliceAllocatorInit]
    /\ forall c, sched_count c t = 0%nat.
Proof.
  destruct garbage. unfold before_create. model_unfold.
  eexists. split; [reflexivity|]. split; [reflexivity|]. intros c. reflexivity.
Qed.

Lemma created_no_sched (c : positive) (garbage : CFStreamEndpoint)
  (h : gmap positive (list (list byte))) (rs : ReadStream) (ws : WriteStream)
  (rh wh : positive) (peer : string) (quota sync : positive) :
  scheduled_or_held c (created garbage h rs ws rh wh peer quota sync) = 0%nat.
Proof.
  destruct (created_world garbage h rs ws rh wh peer quota sync) as (t & Hc & _ & Hs).
  unfold created. rewrite Hc. unfold scheduled_or_held. cbn. rewrite Hs. reflexivity.
Qed.

(** C1. [CallReadCb] and [CallWriteCb] are the only places where a closure
    is scheduled, and each schedules the closure it finds in its slot after
    it has set the slot and the buffer pointer to null: the entry of the
    scheduling call sees both fields empty.  Over any run of the endpoint
    among its collaborators, a closure is scheduled at most as often as an
    operation was issued with it, and not at all while it still waits in a
    slot: each issued read and each issued write has its callback invoked at
    most once. *)
Theorem completion_callback_at_most_once :
  (forall (error : option grpc_error_obj) (w : World) (cb : positive),
      ep_freed w = false -> read_cb (ep w) = Some cb ->
      exists w' o,
        CallReadCb error w = Ok tt w' /\ added w w' = [o]
        /\ ev o = EvClosureSched cb error
        /\ read_cb (seen o) = None /\ read_slices (seen o) = None
        /\ read_cb (ep w') = None /\ read_slices (ep w') = None)
  /\ (forall (error : option grpc_error_obj) (w : World) (cb : positive),
      ep_freed w = false -> write_cb (ep w) = Some cb ->
      exists w' o,
        CallWriteCb error w = Ok tt w' /\ added w w' = [o]
        /\ ev o = EvClosureSched cb error
        /\ write_cb (seen o) = None /\ write_slices (seen o) = None
        /\ write_cb (ep w') = None /\ write_slices (ep w') = None)
  /\ (forall (c : positive) (acts : list Action) (w : World) (r : Res unit),
      run acts w = Some r ->
      (scheduled_or_held c (final r)
       <= scheduled_or_held c w + issued_count c acts)%nat)
  /\ (forall (c : positive) (acts : list Action) (garbage : CFStreamEndpoint)
        (h : gmap positive (list (list byte))) (rs : ReadStream) (ws : WriteStream)
        (rh wh : positive) (peer : string) (quota sync : positive) (r : Res unit),
      run acts (created garbage h rs ws rh wh peer quota sync) = Some r ->
      (sched_count c (trace (final r)) <= issued_count c acts)%nat).
Proof.
  split; [|split; [|split]].
  - intros error w cb Hlive Hcb.
    destruct (CallReadCb_clears_then_schedules error w cb Hlive Hcb) as (w' & Hr & Ha & He).
    eexists w', _. split; [exact Hr|]. split; [exact Ha|].
    rewrite He. by destruct (ep w).
  - intros error w cb Hlive Hcb.
    destruct (CallWriteCb_clears_then_schedules error w cb Hlive Hcb) as (w' & Hr & Ha & He).
    eexists w', _. split; [exact Hr|]. split; [exact Ha|].
    rewrite He. by destruct (ep w).
  - intros c acts w r. apply run_scheduled_or_held.
  - intros c acts garbage h rs ws rh wh peer quota sync r Hrun.
    apply (run_scheduled_or_held c) in Hrun.
    rewrite created_no_sched in Hrun. unfold scheduled_or_held in Hrun. lia.
Qed.

Lemma perform_refs_accounted (a : Action) (w w' : World) :
  refs_accounted w -> enabled a w = true -> perform a w = Ok tt w' ->
  refs_accounted w'.
Proof.
  unfold refs_accounted, read_outstanding, write_outstanding.
  intros (Hrc & Hrd & Hwr & Hfr) Hen Hp.
  destruct a; cbn [enabled] in Hen; try apply Nat.ltb_lt in Hen;
    world_cases_anon w; model_eval_in Hp.
  all: try discriminate Hp.
  all: injection Hp as <-; cbn in *.
  all: try rewrite length_app; cbn.
  all: unfold b2z, b2n in *.
  all: repeat match goal with b : bool |- _ => destruct b end; cbn in *.
  all: try discriminate; try lia.
  all: repeat split; intros; try congruence; try lia.
  all: try (destruct Hfr; lia).
Qed.

Lemma run_refs_accounted (acts : list Action) :
  forall (w w' : World),
    refs_accounted w -> run acts w = Some (Ok tt w') -> refs_accounted w'.
Proof.
  induction acts as [|a rest IH]; intros w w' Hinv Hrun; cbn [run] in Hrun.
  - by injection Hrun as <-.
  - destruct (enabled a w) eqn:Hen; [|discriminate].
    destruct (perform a w) as [[] w1|f w1] eqn:Hp; [|discriminate].
    eapply IH; [|exact Hrun]. eapply perform_refs_accounted; eauto.
Qed.

Lemma created_refs_accounted (garbage : CFStreamEndpoint)
  (h : gmap positive (list (list byte))) (rs : ReadStream) (ws : WriteStream)
  (rh wh : positive) (peer : string) (quota sync : positive) :
  refs_accounted (created garbage h rs ws rh wh peer quota sync).
Proof.
  destruct (created_world garbage h rs ws rh wh peer quota sync) as (t & Hc & _).
  unfold created. rewrite Hc. unfold refs_accounted. cbn.
  repeat split; try reflexivity; try discriminate; lia.
Qed.

(** C6, as the code has it.  In every run of an endpoint from its creation
    that leaves the process running, the reference count is the owner's
    reference (until destroy) plus one for the read in flight plus one for
    the write in flight.  The reference of a read is taken when the read is
    issued and passes from the allocator's answer to the notification, that
    of a write from one notification to the next: at most one continuation
    of each operation is outstanding, and exactly one while the operation's
    slot is taken.  The endpoint is freed exactly when the count is zero, so
    never while a continuation of a read or a write is outstanding, also
    after destroy.  (The watchdog's closure holds no reference.) *)
Theorem continuations_of_operations_hold_references
  (garbage : CFStreamEndpoint)
  (h : gmap positive (list (list byte))) (rs : ReadStream) (ws : WriteStream)
  (rh wh : positive) (peer : string) (quota sync : positive)
  (acts : list Action) (w : World) :
  run acts (created garbage h rs ws rh wh peer quota sync) = Some (Ok tt w) ->
  refcount (ep w)
  = b2z (owner_live w) + Z.of_nat (read_outstanding w) + Z.of_nat (write_outstanding w)
  /\ read_outstanding w = b2n (non_null (read_cb (ep w)))
  /\ write_outstanding w = b2n (non_null (write_cb (ep w)))
  /\ (ep_freed w = true <-> refcount (ep w) = 0)
  /\ ((0 < read_outstanding w + write_outstanding w)%nat -> ep_freed w = false).
Proof.
  intros Hrun.
  pose proof (run_refs_accounted acts _ _ (created_refs_accounted _ _ _ _ _ _ _ _ _) Hrun)
    as (Hrc & Hrd & Hwr & Hfr).
  repeat split; try assumption; try apply Hfr.
  intros Hpos. destruct (ep_freed w) eqn:Hf; [|reflexivity].
  assert (refcount (ep w) = 0) as Hz by (by apply Hfr).
  unfold b2z in Hrc. destruct (owner_live w); lia.
Qed.

(** ** Reads *)

Lemma trim_end_single (s : list byte) (n : nat) :
  (0 < n < length s)%nat -> slice_buffer_trim_end n [s] = [take (length s - n) s].
Proof.
  intros H. unfold slice_buffer_trim_end. cbn [rev app trim_end_rev].
  destruct (Nat.ltb_spec n (length s)); [reflexivity | lia].
Qed.

Lemma take_min_length (n : nat) (l : list byte) :
  take n l = take (n `min` length l) l.
Proof.
  destruct (Nat.le_gt_cases n (length l)).
  - by replace (n `min` length l)%nat with n by lia.
  - replace (n `min` length l)%nat with (length l) by lia.
    rewrite take_ge by lia. by rewrite take_ge by lia.
Qed.

(** The destination after a transfer of [k] bytes into a slice of [len]
    bytes and the trim that follows: the [k] bytes. *)
Lemma filled_then_trimmed (slice avail : list byte) :
  let data := take (length slice) avail in
  (0 < length data < length slice)%nat ->
  slice_buffer_trim_end (length slice - Z.to_nat (Z.of_nat (length data)))
    [data ++ drop (length data) slice]
  = [take (length slice `min` length avail) avail].
Proof.
  intros data H. rewrite Nat2Z.id.
  assert (Hl : length (data ++ drop (length data) slice) = length slice).
  { rewrite length_app, length_drop. lia. }
  rewrite trim_end_single by (rewrite Hl; lia).
  rewrite Hl. replace (length slice - (length slice - length data))%nat
    with (length data) by lia.
  rewrite take_app_length. subst data. by rewrite <- take_min_length.
Qed.

Lemma filled_whole (slice avail : list byte) :
  let data := take (length slice) avail in
  (length slice <= length data)%nat ->
  data ++ drop (length data) slice = take (length slice `min` length avail) avail.
Proof.
  intros data H. rewrite drop_ge by lia. rewrite app_nil_r.
  subst data. apply take_min_length.
Qed.

(** C2, as the code has it.  A read completes on a live endpoint whose
    destination holds one slice of [len] bytes, and the transport hands over
    [k] bytes, [0 < k]: the destination is left holding exactly these [k]
    bytes (trimmed when [k < len], whole when [k = len]); the byte counter, a
    32-bit unsigned field, becomes the old value plus [k] modulo [2^32]; the
    callback, and only it, is scheduled, without error; the slot is cleared
    and the count goes down by one, the endpoint being freed when that was
    the last reference. *)
Theorem ReadAction_success (w : World) (cb p : positive) (slice avail : list byte) :
  ep_freed w = false ->
  read_cb (ep w) = Some cb ->
  read_slices (ep w) = Some p ->
  heap w !! p = Some [slice] ->
  rstream w = RSData avail ->
  (0 < length slice `min` length avail)%nat ->
  let k := (length slice `min` length avail)%nat in
  let w' := final (ReadAction None w) in
  heap w' !! p = Some [take k avail]
  /\ length (take k avail) = k
  /\ total_bytes_read (ep w') = (total_bytes_read (ep w) + Z.of_nat k) mod 2 ^ 32
  /\ scheduled (events_added w w') = [(cb, None)]
  /\ refcount (ep w') = refcount (ep w) - 1
  /\ (ep_freed w' = true <-> refcount (ep w) = 1)
  /\ read_cb (ep w') = None
  /\ read_slices (ep w') = None.
Proof.
  intros Hlive Hcb Hsl Hh Hrs Hk k w'. subst w'.
  assert (Hlen : length (take (length slice) avail) = k)
    by (subst k; apply length_take).
  split; [|split; [by rewrite length_take; lia|]].
  - world_cases w. model_eval.
    all: rewrite lookup_insert_eq; f_equal.
    all: first [ apply filled_then_trimmed; lia | f_equal; apply filled_whole; lia ].
  - world_cases w. model_eval.
    all: rewrite Hlen.
    all: repeat lazymatch goal with |- _ /\ _ => split end.
    all: try (calc_added; reflexivity).
    all: try reflexivity.
    all: try (cbn; split; intros; first [lia | congruence]).
Qed.

(** C5, the path that the claim misses.  When the notifier hands an error
    to [ReadAction], the callback is scheduled with it and the reference is
    released, and the function returns there: the mutex is not taken, the
    timer is not cancelled, and [timer_armed] and the timer keep their
    state. *)
Theorem ReadAction_notifier_error_leaves_watchdog
  (e : grpc_error_obj) (w : World) (cb p : positive) (sb : list (list byte)) :
  ep_freed w = false ->
  read_cb (ep w) = Some cb ->
  read_slices (ep w) = Some p ->
  heap w !! p = Some sb ->
  let w' := final (ReadAction (Some e) w) in
  scheduled (events_added w w') = [(cb, Some e)]
  /\ refcount (ep w') = refcount (ep w) - 1
  /\ timer_cancels (events_added w w') = 0%nat
  /\ (EvMuLock ∉ events_added w w')
  /\ timer_armed (ep w') = timer_armed (ep w)
  /\ timer_deadline w' = timer_deadline w
  /\ timer_cancelled w' = timer_cancelled w.
Proof.
  intros Hlive Hcb Hsl Hh w'. subst w'.
  world_cases w. model_eval.
  all: calc_added; cbn.
  all: repeat lazymatch goal with |- _ /\ _ => split end; try reflexivity.
  all: intros Hin; elem_cases Hin; discriminate.
Qed.

(** The paths of [ReadAction] after a transfer attempt, whatever the
    transport answers: the callback is scheduled, and after that the timer,
    if armed, is cancelled and the flag cleared with the mutex held. *)
Lemma ReadAction_transfer_disarms (w : World) (cb p : positive) (slice : list byte) :
  ep_freed w = false ->
  read_cb (ep w) = Some cb ->
  read_slices (ep w) = Some p ->
  heap w !! p = Some [slice] ->
  refcount (ep w) <> 1 ->
  timer_armed (ep w) = true ->
  exists w' ret err,
    ReadAction None w = Ok tt w'
    /\ events_added w w' =
         [EvReadStreamRead (Z.of_nat (length slice)) ret; EvClosureSched cb err;
          EvMuLock; EvTimerCancel; EvMuUnlock]
    /\ (forall o, o ∈ added w w' -> ev o = EvTimerCancel ->
          mu_held (seen o) = true /\ read_cb (seen o) = None)
    /\ timer_armed (ep w') = false
    /\ timer_deadline w' = None.
Proof.
  intros Hlive Hcb Hsl Hh Hrc Harmed.
  world_cases w.
  match goal with |- context [ReadAction None ?x] =>
    remember (ReadAction None x) as r eqn:Hr end.
  model_eval_in Hr.
  all: subst r; eexists _, _, _; split; [reflexivity|]; calc_added; cbn.
  all: repeat lazymatch goal with |- _ /\ _ => split end; try reflexivity.
  all: intros o Ho He; elem_cases Ho; try discriminate He; split; reflexivity.
Qed.

(** C4, as the code has it.  After a transfer attempt that fails or reads
    zero bytes the endpoint schedules the callback once, with an error, makes
    no second attempt and registers no further notification.  The error of a
    failed transfer carries the peer and the "unavailable" status when the
    transport has an error object for it, and is the bare "Read error" or
    "write failed." when it has none; the error of the zero-byte read is
    "Socket closed" with the peer and the status. *)
Theorem transfer_errors_delivered :
  (forall (w : World) (cb p : positive) (slice : list byte),
      ep_freed w = false ->
      read_cb (ep w) = Some cb ->
      read_slices (ep w) = Some p ->
      heap w !! p = Some [slice] ->
      let w' := final (ReadAction None w) in
      let evs := events_added w w' in
      transfer_attempts evs = 1%nat
      /\ registrations evs = 0%nat
      /\ pend_readable w' = pend_readable w
      /\ match rstream w with
         | RSFailed (Some cf) =>
             exists e, scheduled evs = [(cb, Some e)]
                       /\ err_desc e = "Read error" /\ err_cause e = Some cf
                       /\ annotated (peer_string (ep w)) e
         | RSFailed None | RSClosed =>
             scheduled evs
             = [(cb, Some (GRPC_ERROR_CREATE_FROM_STATIC_STRING "Read error"))]
         | RSData [] =>
             exists e, scheduled evs = [(cb, Some e)]
                       /\ err_desc e = "Socket closed"
                       /\ annotated (peer_string (ep w)) e
         | RSData (_ :: _) => True
         end)
  /\ (forall (w : World) (cb p : positive) (slice : list byte) (rest : list (list byte)),
      ep_freed w = false ->
      write_cb (ep w) = Some cb ->
      write_slices (ep w) = Some p ->
      heap w !! p = Some (slice :: rest) ->
      let w' := final (WriteAction None w) in
      let evs := events_added w w' in
      match ws_mode (wstream w) with
      | WSFailed (Some cf) =>
          transfer_attempts evs = 1%nat /\ registrations evs = 0%nat
          /\ pend_writable w' = pend_writable w
          /\ exists e, scheduled evs = [(cb, Some e)]
                       /\ err_desc e = "write failed." /\ err_cause e = Some cf
                       /\ annotated (peer_string (ep w)) e
      | WSFailed None | WSClosed =>
          transfer_attempts evs = 1%nat /\ registrations evs = 0%nat
          /\ pend_writable w' = pend_writable w
          /\ scheduled evs
             = [(cb, Some (GRPC_ERROR_CREATE_FROM_STATIC_STRING "write failed."))]
      | WSAccept _ => True
      end).
Proof.
  split.
  - intros w cb p slice Hlive Hcb Hsl Hh w' evs. subst evs w'.
    world_cases w. destruct rs as [| [cf|] | [|b avail]]; cbn [rstream].
    all: model_eval.
    all: calc_added; cbn.
    all: repeat lazymatch goal with |- _ /\ _ => split end; try reflexivity.
    all: eexists; repeat split; reflexivity.
  - intros w cb p slice rest Hlive Hcb Hsl Hh w' evs. subst evs w'.
    world_cases w. destruct ws as [[| [cf|] | cap] sent]; cbn [ws_mode]; [| | |exact I].
    all: model_eval.
    all: calc_added; cbn.
    all: repeat lazymatch goal with |- _ /\ _ => split end; try reflexivity.
    all: try (eexists; repeat split; reflexivity).
Qed.

(** ** Writes *)

Lemma sb_length_cons (s : list byte) (rest : list (list byte)) :
  sb_length (s :: rest) = (length s + sb_length rest)%nat.
Proof. unfold sb_length. cbn [concat]. by rewrite length_app. Qed.

Lemma grpc_slice_sub_rest (s : list byte) (n : nat) :
  grpc_slice_sub s n (length s) = drop n s.
Proof.
  unfold grpc_slice_sub. apply take_ge. rewrite length_drop. lia.
Qed.

(** One notification of a write whose sequence starts with the region [s],
    on a transport that takes up to [cap] bytes. *)
Lemma WriteAction_transfer (w : World) (cb p : positive) (s : list byte)
  (rest : list (list byte)) (cap : nat) :
  ep_freed w = false ->
  write_cb (ep w) = Some cb ->
  write_slices (ep w) = Some p ->
  heap w !! p = Some (s :: rest) ->
  ws_mode (wstream w) = WSAccept cap ->
  let n := (cap `min` length s)%nat in
  exists w',
    WriteAction None w = Ok tt w'
    /\ wstream w' = {| ws_mode := WSAccept cap; ws_sent := ws_sent (wstream w) ++ take n s |}
    /\ owner_live w' = owner_live w
    /\ transfer_attempts (events_added w w') = 1%nat
    /\ ((n < length s)%nat ->
        heap w' !! p = Some (drop n s :: rest)
        /\ events_added w w' = [EvWriteStreamWrite (take n s) (Z.of_nat n); EvNotifyOnWrite]
        /\ sched_count cb (trace w') = sched_count cb (trace w)
        /\ ep w' = ep w /\ ep_freed w' = false
        /\ pend_writable w' = S (pend_writable w))
    /\ (n = length s -> (0 < sb_length rest)%nat ->
        heap w' !! p = Some rest
        /\ events_added w w' = [EvWriteStreamWrite s (Z.of_nat n); EvNotifyOnWrite]
        /\ sched_count cb (trace w') = sched_count cb (trace w)
        /\ ep w' = ep w /\ ep_freed w' = false
        /\ pend_writable w' = S (pend_writable w))
    /\ (n = length s -> sb_length rest = 0%nat ->
        heap w' !! p = Some rest
        /\ scheduled (events_added w w') = [(cb, None)]
        /\ registrations (events_added w w') = 0%nat
        /\ sched_count cb (trace w') = S (sched_count cb (trace w))
        /\ write_cb (ep w') = None /\ write_slices (ep w') = None
        /\ refcount (ep w') = refcount (ep w) - 1
        /\ pend_writable w' = pend_writable w).
Proof.
  intros Hlive Hcb Hsl Hh Hmode n.
  world_cases w. destruct ws as [mode sent]. cbn in Hmode. subst mode.
  assert (Hlen : length (take cap s) = n) by (subst n; apply length_take).
  assert (Htk : take cap s = take n s) by apply take_min_length.
  assert (Hle : (n <= length s)%nat) by lia.
  clearbody n.
  match goal with |- context [WriteAction None ?x] =>
    remember (WriteAction None x) as r eqn:Hr end.
  model_eval_in Hr.
  all: subst r; eexists; (split; [reflexivity|]); model_unfold.
  all: rewrite ?Hlen, ?Nat2Z.id, ?grpc_slice_sub_rest, ?sb_length_cons, ?length_drop in *.
  all: rewrite ?Htk, ?lookup_insert_eq.
  all: split; [reflexivity|]; split; [reflexivity|]; split; [calc_added; reflexivity|].
  all: split; [intros Hn | split; intros Hn Hrest]; try (exfalso; lia).
  all: try (rewrite Hn, take_ge by lia).
  all: calc_added; cbn; rewrite ?bool_decide_eq_true_2 by reflexivity.
  all: repeat lazymatch goal with |- _ /\ _ => split end; try reflexivity.
Qed.

(** A write in flight, drained by the notifications of
    [write_notifications caps]: the bytes the transport has taken, followed
    by the bytes still in the sequence, are at every point the bytes there
    were; the callback is scheduled at most once and only when the sequence
    holds no more bytes. *)
Lemma write_drained_in_order (cb p : positive) (caps : list nat) :
  forall (w : World) (remaining : list (list byte)) (r : Res unit),
    ep_freed w = false ->
    write_cb (ep w) = Some cb ->
    write_slices (ep w) = Some p ->
    heap w !! p = Some remaining ->
    remaining <> [] ->
    pend_writable w = 1%nat ->
    run (write_notifications caps) w = Some r ->
    exists w',
      r = Ok tt w'
      /\ ((sched_count cb (trace w') = sched_count cb (trace w)
           /\ write_cb (ep w') = Some cb
           /\ exists rem',
               heap w' !! p = Some rem'
               /\ ws_sent (wstream w') ++ concat rem'
                  = ws_sent (wstream w) ++ concat remaining)
          \/ (sched_count cb (trace w') = S (sched_count cb (trace w))
              /\ write_cb (ep w') = None
              /\ ws_sent (wstream w') = ws_sent (wstream w) ++ concat remaining)).
Proof.
  induction caps as [|cap caps IH]; intros w remaining r Hlive Hcb Hsl Hh Hne Hpw Hrun.
  - cbn in Hrun. injection Hrun as <-. eexists. split; [reflexivity|].
    left. repeat split; try assumption. by exists remaining.
  - destruct remaining as [|s rest]; [done|].
    cbn [write_notifications run enabled perform] in Hrun.
    set (w1 := with_wstream {| ws_mode := WSAccept cap; ws_sent := ws_sent (wstream w) |} w) in *.
    assert (Hpw1 : pend_writable w1 = 1%nat) by (by destruct w).
    rewrite Hpw1 in Hrun. cbn [Nat.ltb Nat.leb] in Hrun.
    unfold bind at 1 in Hrun.
    set (w2 := with_pend_writable (Init.Nat.pred (pend_writable w1)) w1) in *.
    destruct (WriteAction_transfer w2 cb p s rest cap) as (w3 & Hw3 & Hws & Hol & _ & Hpart & Hmore & Hdone);
      try (by destruct w).
    rewrite Hw3 in Hrun.
    assert (Hsent2 : ws_sent (wstream w2) = ws_sent (wstream w)) by (by destruct w).
    assert (Htr2 : trace w2 = trace w) by (by destruct w).
    assert (Hep2 : ep w2 = ep w) by (by destruct w).
    assert (Hpw2 : pend_writable w2 = 0%nat) by (destruct w; cbn in *; by subst).
    set (n := (cap `min` length s)%nat) in *.
    destruct (Nat.lt_ge_cases n (length s)) as [Hlt|Hge].
    + destruct (Hpart Hlt) as (Hh3 & _ & Hsc & Hep & Hfr & Hpw3).
      destruct (IH w3 (drop n s :: rest) r) as (w' & -> & Hres); try assumption; try done.
      { by rewrite Hep, Hep2. }
      { by rewrite Hep, Hep2. }
      { by rewrite Hpw3, Hpw2. }
      exists w'. split; [reflexivity|].
      rewrite Hws, Hsc, Htr2, Hsent2 in Hres. cbn [ws_sent concat] in Hres.
      rewrite <- app_assoc, (app_assoc (take n s)), take_drop in Hres.
      exact Hres.
    + assert (Hn : n = length s) by lia.
      destruct (Nat.eq_dec (sb_length rest) 0%nat) as [Hz|Hnz].
      * destruct (Hdone Hn Hz) as (Hh3 & _ & _ & Hsc & Hcb3 & _ & _ & Hpw3).
        destruct caps as [|cap2 caps].
        -- cbn [write_notifications run] in Hrun. injection Hrun as <-.
           exists w3. split; [reflexivity|]. right.
           rewrite Hsc, Htr2, Hws, Hsent2. cbn [ws_sent concat].
           repeat split; try assumption.
           rewrite Hn, take_ge by lia.
           unfold sb_length in Hz. apply nil_length_inv in Hz. rewrite Hz.
           by rewrite app_nil_r.
        -- cbn [write_notifications run enabled perform] in Hrun.
           assert (Hpw4 : pend_writable
                     (with_wstream {| ws_mode := WSAccept cap2;
                                      ws_sent := ws_sent (wstream w3) |} w3) = 0%nat)
             by (destruct w3; cbn in *; lia).
           rewrite Hpw4 in Hrun. discriminate Hrun.
      * destruct (Hmore Hn) as (Hh3 & _ & Hsc & Hep & Hfr & Hpw3); [lia|].
        destruct (IH w3 rest r) as (w' & -> & Hres); try assumption.
        { by rewrite Hep, Hep2. }
        { by rewrite Hep, Hep2. }
        { intros ->. apply Hnz. reflexivity. }
        { by rewrite Hpw3, Hpw2. }
        exists w'. split; [reflexivity|].
        rewrite Hws, Hsc, Htr2, Hsent2 in Hres. cbn [ws_sent concat] in Hres.
        rewrite Hn, take_ge in Hres by lia.
        rewrite <- app_assoc in Hres. exact Hres.
Qed.

Lemma CFStreamWrite_issued (w : World) (p cb : positive) (content : list (list byte)) :
  ep_freed w = false ->
  write_cb (ep w) = None ->
  exists w',
    perform (AWrite p content cb) w = Ok tt w'
    /\ ep_freed w' = false
    /\ write_cb (ep w') = Some cb
    /\ write_slices (ep w') = Some p
    /\ refcount (ep w') = refcount (ep w) + 1
    /\ heap w' !! p = Some content
    /\ pend_writable w' = S (pend_writable w)
    /\ wstream w' = wstream w
    /\ events_added w w' = [EvNotifyOnWrite]
    /\ sched_count cb (trace w') = sched_count cb (trace w).
Proof.
  intros Hlive Hcb. world_cases w. model_unfold.
  eexists. split; [reflexivity|]. model_unfold. rewrite lookup_insert_eq.
  calc_added. cbn. repeat split; reflexivity.
Qed.

(** C3.  One notification of a write hands the transport a prefix of the
    first region of the sequence and nothing else.  When the transport takes
    less than the region, the rest of the region goes back to the front of
    the sequence, interest in "writable" is registered again, no callback is
    scheduled and the endpoint, its reference count included, is as before.
    When it takes the whole region and bytes remain, the sequence is left
    with the regions after it and interest is registered again, without a
    callback.  When it takes the whole region and no byte remains (the code
    tests [write_slices->length], the byte count: the sequence is empty or
    holds empty regions only, which stay in the buffer), the callback is
    scheduled without error, its slot cleared and the reference released.
    Over the notifications of a write from its issue on, the
    bytes taken by the transport followed by the bytes left in the sequence
    are always the bytes of the caller's sequence in their order, and the
    callback is scheduled, once, only when the transport has taken all of
    them. *)
Theorem write_in_sequence_order :
  (forall (w : World) (cb p : positive) (s : list byte)
      (rest : list (list byte)) (cap : nat),
      ep_freed w = false ->
      write_cb (ep w) = Some cb ->
      write_slices (ep w) = Some p ->
      heap w !! p = Some (s :: rest) ->
      ws_mode (wstream w) = WSAccept cap ->
      let n := (cap `min` length s)%nat in
      exists w',
        WriteAction None w = Ok tt w'
        /\ ws_sent (wstream w') = ws_sent (wstream w) ++ take n s
        /\ transfer_attempts (events_added w w') = 1%nat
        /\ ((n < length s)%nat ->
            heap w' !! p = Some (drop n s :: rest)
            /\ events_added w w'
               = [EvWriteStreamWrite (take n s) (Z.of_nat n); EvNotifyOnWrite]
            /\ ep w' = ep w /\ ep_freed w' = false)
        /\ (n = length s -> (0 < sb_length rest)%nat ->
            heap w' !! p = Some rest
            /\ events_added w w' = [EvWriteStreamWrite s (Z.of_nat n); EvNotifyOnWrite]
            /\ ep w' = ep w /\ ep_freed w' = false)
        /\ (n = length s -> sb_length rest = 0%nat ->
            scheduled (events_added w w') = [(cb, None)]
            /\ registrations (events_added w w') = 0%nat
            /\ write_cb (ep w') = None /\ write_slices (ep w') = None
            /\ refcount (ep w') = refcount (ep w) - 1
            /\ heap w' !! p = Some rest))
  /\ (forall (w : World) (cb p : positive) (content : list (list byte))
        (caps : list nat) (r : Res unit),
      ep_freed w = false ->
      owner_live w = true ->
      write_cb (ep w) = None ->
      pend_writable w = 0%nat ->
      content <> [] ->
      run (AWrite p content cb :: write_notifications caps) w = Some r ->
      exists w',
        r = Ok tt w'
        /\ ((sched_count cb (trace w') = sched_count cb (trace w)
             /\ write_cb (ep w') = Some cb
             /\ exists rem',
                 heap w' !! p = Some rem'
                 /\ ws_sent (wstream w') ++ concat rem'
                    = ws_sent (wstream w) ++ concat content)
            \/ (sched_count cb (trace w') = S (sched_count cb (trace w))
                /\ write_cb (ep w') = None
                /\ ws_sent (wstream w') = ws_sent (wstream w) ++ concat content))).
Proof.
  split.
  - intros w cb p s rest cap Hlive Hcb Hsl Hh Hmode n.
    destruct (WriteAction_transfer w cb p s rest cap Hlive Hcb Hsl Hh Hmode)
      as (w' & Hr & Hws & _ & Hta & Hpart & Hmore & Hdone).
    exists w'. split; [exact Hr|]. split; [by rewrite Hws|]. split; [exact Hta|].
    split; [|split].
    + intros Hlt. destruct (Hpart Hlt) as (? & ? & ? & ? & ? & ?). by repeat split.
    + intros Hn Hpos. destruct (Hmore Hn Hpos) as (? & ? & ? & ? & ? & ?). by repeat split.
    + intros Hn Hz. destruct (Hdone Hn Hz) as (? & ? & ? & ? & ? & ? & ? & ?). by repeat split.
  - intros w cb p content caps r Hlive Hol Hcb Hpw Hne Hrun.
    cbn [run enabled] in Hrun. rewrite Hol in Hrun.
    destruct (CFStreamWrite_issued w p cb content Hlive Hcb)
      as (w1 & Hw1 & Hfr1 & Hcb1 & Hsl1 & _ & Hh1 & Hpw1 & Hws1 & _ & Hsc1).
    rewrite Hw1 in Hrun.
    destruct (write_drained_in_order cb p caps w1 content r) as (w' & -> & Hres);
      try assumption.
    { by rewrite Hpw1, Hpw. }
    exists w'. split; [reflexivity|]. by rewrite Hsc1, Hws1 in Hres.
Qed.

(** ** The watchdog *)

Lemma CFStreamShutdown_disarms (why : option grpc_error_obj) (w : World) :
  ep_freed w = false ->
  timer_armed (ep w) = true ->
  exists w', CFStreamShutdown why w = Ok tt w' /\ timer_deadline w' = None.
Proof.
  intros Hlive Harmed. world_cases w. name_run r Hr. model_eval_in Hr.
  all: subst r; eexists; split; reflexivity.
Qed.


(** C10.  The timer's closure, run with an error, returns at once: the
    world is as it was, with no read of the transport, no change to the
    endpoint and no abort.  This is what a cancelled timer does when its
    closure runs; and where the endpoint cancels the timer, on shutdown and
    on the paths of [ReadAction] after a transfer attempt, no deadline is
    left that could still expire.  A read that ends because the allocator
    refuses its slice completes without a word to the timer: a deadline
    that was set is still set. *)
Theorem err_cb_with_error_returns :
  (forall (e : grpc_error_obj) (w : World), err_cb (Some e) w = Ok tt w)
  /\ (forall (w : World),
        perform DTimerCancelled w
        = Ok tt (with_timer (timer_deadline w) (Init.Nat.pred (timer_cancelled w)) w))
  /\ (forall (w : World) (why : option grpc_error_obj),
        ep_freed w = false ->
        timer_armed (ep w) = true ->
        enabled DTimerFired (final (CFStreamShutdown why w)) = false)
  /\ (forall (w : World) (cb p : positive) (slice : list byte),
        ep_freed w = false ->
        read_cb (ep w) = Some cb ->
        read_slices (ep w) = Some p ->
        heap w !! p = Some [slice] ->
        refcount (ep w) <> 1 ->
        timer_armed (ep w) = true ->
        returned (ReadAction None w) = true
        /\ enabled DTimerFired (final (ReadAction None w)) = false)
  /\ (forall (e : grpc_error_obj) (w : World) (cb p : positive)
        (sb : list (list byte)),
        ep_freed w = false ->
        read_cb (ep w) = Some cb ->
        read_slices (ep w) = Some p ->
        heap w !! p = Some sb ->
        let w' := final (CFStreamReadAllocationDone (Some e) w) in
        returned (CFStreamReadAllocationDone (Some e) w) = true
        /\ scheduled (events_added w w') = [(cb, Some e)]
        /\ read_cb (ep w') = None
        /\ timer_cancels (events_added w w') = 0%nat
        /\ timer_deadline w' = timer_deadline w
        /\ enabled DTimerFired w' = enabled DTimerFired w).
Proof.
  split; [|split; [|split; [|split]]].
  - reflexivity.
  - reflexivity.
  - intros w why Hlive Harmed.
    destruct (CFStreamShutdown_disarms why w Hlive Harmed) as (w' & -> & Htd).
    cbn [final enabled]. rewrite Htd. reflexivity.
  - intros w cb p slice Hlive Hcb Hsl Hh Hrc Harmed.
    destruct (ReadAction_transfer_disarms w cb p slice Hlive Hcb Hsl Hh Hrc Harmed)
      as (w' & ret & err & -> & _ & _ & _ & Htd).
    cbn [final enabled returned]. rewrite Htd. split; reflexivity.
  - intros e w cb p sb Hlive Hcb Hsl Hh w'. subst w'.
    world_cases w. model_eval.
    all: calc_added; cbn.
    all: repeat split; reflexivity.
Qed.

(** ** Creation and destruction *)

(** C9.  [grpc_cfstream_endpoint_create], whatever the allocated memory
    held: reference count 1, flag clear, counter 0, both callback slots and
    both buffer pointers null, the stream handles kept and retained, the
    notifier referenced, the peer string copied, a resource user made for
    the quota under the peer's name.  [CFStreamDestroy] is [CFStreamUnref]:
    the count goes down by one, and the endpoint is freed, with everything
    it holds released, exactly when that makes the count zero. *)
Theorem create_then_destroy :
  (forall (garbage : CFStreamEndpoint)
      (h : gmap positive (list (list byte))) (rs : ReadStream) (ws : WriteStream)
      (rh wh : positive) (peer : string) (quota sync : positive),
      exists w',
        grpc_cfstream_endpoint_create rh wh peer quota sync
          (before_create garbage h rs ws) = Ok tt w'
        /\ ep w' =
             {| refcount := 1; read_stream := rh; write_stream := wh;
                stream_sync := sync; read_cb := None; write_cb := None;
                read_slices := None; write_slices := None;
                peer_string := peer;
                resource_user := {| ru_quota := quota; ru_name := peer |};
                mu_held := false; timer_armed := false; total_bytes_read := 0 |}
        /\ ep_freed w' = false
        /\ history w' =
             [EvCFRetain rh; EvCFRetain wh; EvHandleRef sync; EvStrdup peer;
              EvResourceUserCreate quota peer; EvSliceAllocatorInit]
        /\ timer_deadline w' = None
        /\ read_outstanding w' = 0%nat /\ write_outstanding w' = 0%nat)
  /\ (forall (w : World), CFStreamDestroy w = CFStreamUnref w)
  /\ (forall (w : World),
      ep_freed w = false ->
      exists w',
        CFStreamDestroy w = Ok tt w'
        /\ ep w' = set_refcount (refcount (ep w) - 1) (ep w)
        /\ (ep_freed w' = true <-> refcount (ep w) - 1 = 0)
        /\ events_added w w' =
             (if refcount (ep w) - 1 =? 0
              then [EvResourceUserUnref; EvCFRelease (read_stream (ep w));
                    EvCFRelease (write_stream (ep w));
                    EvHandleUnref (stream_sync (ep w));
                    EvFreePeerString; EvFreeEndpoint]
              else [])).
Proof.
  split; [|split].
  - intros garbage h rs ws rh wh peer quota sync.
    destruct garbage. unfold before_create. model_unfold.
    eexists. split; [reflexivity|]. repeat split; reflexivity.
  - reflexivity.
  - intros w Hlive. world_cases w. name_run r Hr.
    model_eval_in Hr.
    all: subst r; eexists; (split; [reflexivity|]); model_unfold.
    all: calc_added; cbn.
    all: repeat match goal with
                | |- context [Z.eqb ?a ?b] => destruct (Z.eqb_spec a b); try lia
                end.
    all: repeat split; intros; first [reflexivity | lia | congruence].
Qed.

(** ** Further properties of the endpoint's functions *)

(** X1.  [ReadAction] releases the read's reference before it takes the
    mutex to disarm the watchdog.  When that reference is the last one (the
    owner has already destroyed the endpoint), every path after the transfer
    attempt schedules the callback, frees the endpoint and then reaches for
    [ep->mu] in freed memory.  What the process does from there on is
    undefined, and nothing is said about it. *)
Theorem ReadAction_last_reference_use_after_free
  (w : World) (cb p : positive) (slice : list byte) :
  ep_freed w = false ->
  read_cb (ep w) = Some cb ->
  read_slices (ep w) = Some p ->
  heap w !! p = Some [slice] ->
  refcount (ep w) = 1 ->
  exists w',
    ReadAction None w = Halt UseAfterFree w'
    /\ ep_freed w' = true
    /\ (exists err, scheduled (events_added w w') = [(cb, err)]).
Proof.
  intros Hlive Hcb Hsl Hh Hrc. world_cases w. name_run r Hr.
  model_eval_in Hr.
  all: subst r; eexists; (split; [reflexivity|]); model_unfold.
  all: calc_added; cbn.
  all: repeat lazymatch goal with |- _ /\ _ => split end; try reflexivity.
  all: eexists; reflexivity.
Qed.

(** X2.  [WriteAction] after the release of the write's reference, with a
    write pending on a non-empty sequence.  In a process that does not
    trace it does not touch the endpoint again: it returns whatever the
    notifier and the transport answer, also when the release frees the
    endpoint, which happens only on a path that schedules the callback and
    only when the count was 1.  In a process that traces, the dump at the
    end of the successful path reads [ep->peer_string]: when the transport
    takes all that was left and the write's reference is the last one, the
    callback is scheduled, the endpoint is freed, and then it is read. *)
Theorem WriteAction_after_release
  (w : World) (cb p : positive) (s : list byte) (rest : list (list byte)) :
  ep_freed w = false ->
  write_cb (ep w) = Some cb ->
  write_slices (ep w) = Some p ->
  heap w !! p = Some (s :: rest) ->
  (forall error,
      exists w',
        WriteAction_tracing false error w = Ok tt w'
        /\ (ep_freed w' = true ->
            refcount (ep w) = 1
            /\ exists err, scheduled (events_added w w') = [(cb, err)])
        /\ (scheduled (events_added w w') = [] -> ep w' = ep w))
  /\ (forall cap,
        ws_mode (wstream w) = WSAccept cap ->
        (length s <= cap)%nat ->
        sb_length rest = 0%nat ->
        refcount (ep w) = 1 ->
        exists w',
          WriteAction_tracing true None w = Halt UseAfterFree w'
          /\ ep_freed w' = true
          /\ scheduled (events_added w w') = [(cb, None)]
          /\ ws_sent (wstream w') = ws_sent (wstream w) ++ s).
Proof.
  intros Hlive Hcb Hsl Hh. split.
  - intros error. world_cases w. name_run r Hr.
    model_eval_in Hr.
    all: subst r; eexists; (split; [reflexivity|]); model_unfold.
    all: calc_added; cbn.
    all: split; intros Hx; try discriminate Hx; try reflexivity.
    all: split; [lia | eexists; reflexivity].
  - intros cap Hmode Hcap Hrest Hrc.
    world_cases w. destruct ws as [mode sent]. cbn in Hmode. subst mode.
    assert (Hlen : length (take cap s) = length s) by (rewrite length_take; lia).
    assert (Htk : take cap s = s) by (apply take_ge; lia).
    name_run r Hr.
    model_eval_in Hr.
    all: rewrite ?Hlen, ?Nat2Z.id, ?sb_length_cons in *; try lia.
    all: subst r; eexists; (split; [reflexivity|]); model_unfold.
    all: rewrite ?Htk; calc_added; cbn.
    all: repeat split; reflexivity.
Qed.

(** X3.  A read issued while another read is pending fails the assertion
    and stops the process; by then the watchdog has been armed if it was
    not (for [now + 60000], where that is a value of the clock's 64-bit
    type), but the pending read's slot, the reference count, the caller's
    buffers and the requests at the allocator are as they were. *)
Theorem CFStreamRead_overlapping
  (w : World) (slices cb old : positive) (now : Z) :
  ep_freed w = false ->
  read_cb (ep w) = Some old ->
  - 2 ^ 63 <= now ->
  now + 60000 < 2 ^ 63 ->
  exists w',
    CFStreamRead slices cb now w = Halt AssertFailed w'
    /\ read_cb (ep w') = Some old
    /\ read_slices (ep w') = read_slices (ep w)
    /\ refcount (ep w') = refcount (ep w)
    /\ heap w' = heap w
    /\ pend_alloc w' = pend_alloc w
    /\ timer_armed (ep w') = true
    /\ timer_deadline w' =
         (if timer_armed (ep w) then timer_deadline w else Some (now + 60000)).
Proof.
  intros Hlive Hcb Hlo Hhi. world_cases w. name_run r Hr.
  model_eval_in Hr.
  all: subst r; eexists; (split; [reflexivity|]); model_unfold.
  all: rewrite ?grpc_millis_add_in_range by lia.
  all: repeat split; reflexivity.
Qed.

(** X4.  A write issued while another write is pending fails the assertion
    before anything is changed. *)
Theorem CFStreamWrite_overlapping (w : World) (slices cb old : positive) :
  ep_freed w = false ->
  write_cb (ep w) = Some old ->
  CFStreamWrite slices cb w = Halt AssertFailed w.
Proof.
  intros Hlive Hcb. world_cases w. model_unfold. reflexivity.
Qed.

(** X5.  The allocator's answer, on a live endpoint.  A grant registers
    interest in "readable" once and leaves the endpoint as it is.  A
    failure empties the destination, schedules the read's callback with the
    allocator's error as it came, clears the slot and releases the read's
    reference, with no transfer attempt and no registration; the watchdog
    armed by the read stays armed. *)
Theorem CFStreamReadAllocationDone_effects :
  (forall (w : World),
      ep_freed w = false ->
      exists w',
        CFStreamReadAllocationDone None w = Ok tt w'
        /\ events_added w w' = [EvNotifyOnRead]
        /\ ep w' = ep w /\ ep_freed w' = ep_freed w /\ heap w' = heap w
        /\ pend_readable w' = S (pend_readable w))
  /\ (forall (e : grpc_error_obj) (w : World) (cb p : positive) (sb : list (list byte)),
      ep_freed w = false ->
      read_cb (ep w) = Some cb ->
      read_slices (ep w) = Some p ->
      heap w !! p = Some sb ->
      exists w',
        CFStreamReadAllocationDone (Some e) w = Ok tt w'
        /\ scheduled (events_added w w') = [(cb, Some e)]
        /\ transfer_attempts (events_added w w') = 0%nat
        /\ registrations (events_added w w') = 0%nat
        /\ timer_cancels (events_added w w') = 0%nat
        /\ heap w' !! p = Some []
        /\ read_cb (ep w') = None /\ read_slices (ep w') = None
        /\ refcount (ep w') = refcount (ep w) - 1
        /\ timer_armed (ep w') = timer_armed (ep w)
        /\ timer_deadline w' = timer_deadline w).
Proof.
  split.
  - intros w Hlive. world_cases w. model_unfold. eexists. split; [reflexivity|].
    calc_added. cbn. repeat split; reflexivity.
  - intros e w cb p sb Hlive Hcb Hsl Hh. world_cases w. name_run r Hr.
    model_eval_in Hr.
    all: subst r; eexists; (split; [reflexivity|]); model_unfold.
    all: rewrite ?lookup_insert_eq; calc_added; cbn.
    all: repeat split; reflexivity.
Qed.

(** X6.  When the notifier hands an error to [WriteAction], the rest of the
    sequence is discarded, the callback is scheduled with that error as it
    came, the slot is cleared and the reference released; nothing is handed
    to the transport and no interest is registered. *)
Theorem WriteAction_notifier_error
  (e : grpc_error_obj) (w : World) (cb p : positive) (sb : list (list byte)) :
  ep_freed w = false ->
  write_cb (ep w) = Some cb ->
  write_slices (ep w) = Some p ->
  heap w !! p = Some sb ->
  exists w',
    WriteAction (Some e) w = Ok tt w'
    /\ scheduled (events_added w w') = [(cb, Some e)]
    /\ transfer_attempts (events_added w w') = 0%nat
    /\ registrations (events_added w w') = 0%nat
    /\ heap w' !! p = Some []
    /\ wstream w' = wstream w
    /\ write_cb (ep w') = None /\ write_slices (ep w') = None
    /\ refcount (ep w') = refcount (ep w) - 1.
Proof.
  intros Hlive Hcb Hsl Hh. world_cases w. name_run r Hr.
  model_eval_in Hr.
  all: subst r; eexists; (split; [reflexivity|]); model_unfold.
  all: rewrite ?lookup_insert_eq; calc_added; cbn.
  all: repeat split; reflexivity.
Qed.

(** X7.  A notification that finds no operation pending (the slot is null)
    fails the assertion at the top of [ReadAction] or [WriteAction], with or
    without an error: nothing is read or written, no closure is scheduled
    and the endpoint is untouched. *)
Theorem stray_notification_asserts (error : option grpc_error_obj) (w : World) :
  ep_freed w = false ->
  (read_cb (ep w) = None -> ReadAction error w = Halt AssertFailed w)
  /\ (write_cb (ep w) = None -> WriteAction error w = Halt AssertFailed w).
Proof.
  intros Hlive. split; intros Hcb; world_cases w; model_unfold; reflexivity.
Qed.

(** X8.  [CFStreamAnnotateError] on a live endpoint leaves the world as it
    is and returns the error with the "unavailable" status and the
    endpoint's peer set, replacing what the source error had under these
    two keys; the description, the platform error and every other property
    of the source error are kept. *)
Theorem CFStreamAnnotateError_effects (src : grpc_error_obj) (w : World) :
  ep_freed w = false ->
  exists e,
    CFStreamAnnotateError src w = Ok e w
    /\ annotated (peer_string (ep w)) e
    /\ err_desc e = err_desc src
    /\ err_cause e = err_cause src
    /\ (forall k, k <> GRPC_ERROR_INT_GRPC_STATUS ->
          grpc_error_get_int e k = grpc_error_get_int src k)
    /\ (forall k, k <> GRPC_ERROR_STR_TARGET_ADDRESS ->
          grpc_error_get_str e k = grpc_error_get_str src k).
Proof.
  intros Hlive. unfold CFStreamAnnotateError, bind, get_ep, ret. rewrite Hlive.
  eexists. split; [reflexivity|].
  unfold annotated, grpc_error_get_int, grpc_error_get_str,
    grpc_error_set_str, grpc_error_set_int.
  cbn [err_ints err_strs err_desc err_cause assoc_find].
  repeat split; try (by rewrite decide_True).
  all: intros k Hk; by rewrite decide_False.
Qed.




Lemma perform_connection (a : Action) (w : World) :
  connection_of (ep (final (perform a w))) = connection_of (ep w).
Proof.
  destruct a; world_cases_anon w.
  all: try model_eval.
  all: model_unfold.
  all: reflexivity.
Qed.

Lemma run_connection (acts : list Action) :
  forall (w : World) (r : Res unit),
    run acts w = Some r -> connection_of (ep (final r)) = connection_of (ep w).
Proof.
  induction acts as [|a rest IH]; intros w r Hrun; cbn [run] in Hrun.
  - by injection Hrun as <-.
  - destruct (enabled a w); [|discriminate].
    pose proof (perform_connection a w) as Hstep.
    destruct (perform a w) as [[] w1|f w1] eqn:Hp; cbn [final] in Hstep.
    + rewrite (IH _ _ Hrun). exact Hstep.
    + injection Hrun as <-. exact Hstep.
Qed.

Lemma created_connection (garbage : CFStreamEndpoint)
  (h : gmap positive (list (list byte))) (rs : ReadStream) (ws : WriteStream)
  (rh wh : positive) (peer : string) (quota sync : positive) :
  connection_of (ep (created garbage h rs ws rh wh peer quota sync))
  = (rh, wh, sync, peer, {| ru_quota := quota; ru_name := peer |}).
Proof.
  destruct (created_world garbage h rs ws rh wh peer quota sync) as (t & Hc & _).
  unfold created. rewrite Hc. reflexivity.
Qed.

Lemma getters_read_only (w : World) :
  ep_freed w = false ->
  (exists w',
      CFStreamGetPeer w = Ok (peer_string (ep w)) w'
      /\ events_added w w' = [EvStrdup (peer_string (ep w))]
      /\ ep w' = ep w)
  /\ CFStreamGetResourceUser w = Ok (resource_user (ep w)) w.
Proof.
  intros Hlive. world_cases w. split.
  - unfold CFStreamGetPeer. model_unfold.
    eexists. split; [reflexivity|]. calc_added. split; reflexivity.
  - unfold CFStreamGetResourceUser. model_unfold. reflexivity.
Qed.

(** X10.  The stream handles, the notifier, the peer string and the
    resource user are written by the constructor only: after any run,
    however it ends, they are what the constructor was given.  So on a live
    endpoint [CFStreamGetPeer] returns a copy of the constructor's peer
    string and [CFStreamGetResourceUser] the resource user made for the
    constructor's quota, and neither changes the endpoint. *)
Theorem connection_fixed_at_creation
  (garbage : CFStreamEndpoint)
  (h : gmap positive (list (list byte))) (rs : ReadStream) (ws : WriteStream)
  (rh wh : positive) (peer : string) (quota sync : positive)
  (acts : list Action) (r : Res unit) :
  run acts (created garbage h rs ws rh wh peer quota sync) = Some r ->
  connection_of (ep (final r))
  = (rh, wh, sync, peer, {| ru_quota := quota; ru_name := peer |})
  /\ (ep_freed (final r) = false ->
      (exists w',
          CFStreamGetPeer (final r) = Ok peer w'
          /\ events_added (final r) w' = [EvStrdup peer]
          /\ ep w' = ep (final r))
      /\ CFStreamGetResourceUser (final r)
         = Ok {| ru_quota := quota; ru_name := peer |} (final r)).
Proof.
  intros Hrun. apply run_connection in Hrun.
  rewrite created_connection in Hrun.
  split; [exact Hrun|].
  intros Hlive. generalize dependent (final r). intros W Hconn Hlive.
  assert (Hpeer : peer_string (ep W) = peer)
    by exact (f_equal (fun x => snd (fst x)) Hconn).
  assert (Hru : resource_user (ep W) = {| ru_quota := quota; ru_name := peer |})
    by exact (f_equal snd Hconn).
  rewrite <- Hru. rewrite <- Hpeer.
  apply getters_read_only, Hlive.
Qed.

(** X11.  Shutdown with a read pending, followed by the notifier's answer
    to it (the pending notification delivered with an error): both calls
    return, the read's callback is scheduled once with the notifier's error,
    the read's reference is released, and the watchdog is off, cancelled by
    the shutdown. *)
Theorem shutdown_then_read_notification
  (why : option grpc_error_obj) (e : grpc_error_obj) (w : World)
  (cb p : positive) (sb : list (list byte)) :
  ep_freed w = false ->
  read_cb (ep w) = Some cb ->
  read_slices (ep w) = Some p ->
  heap w !! p = Some sb ->
  exists w1 w2,
    CFStreamShutdown why w = Ok tt w1
    /\ ReadAction (Some e) w1 = Ok tt w2
    /\ scheduled (events_added w w1) = []
    /\ scheduled (events_added w1 w2) = [(cb, Some e)]
    /\ timer_cancels (events_added w w1) = b2n (timer_armed (ep w))
    /\ timer_armed (ep w2) = false
    /\ (timer_armed (ep w) = true -> timer_deadline w2 = None)
    /\ read_cb (ep w2) = None
    /\ heap w2 !! p = Some []
    /\ refcount (ep w2) = refcount (ep w) - 1.
Proof.
  intros Hlive Hcb Hsl Hh. world_cases w. destruct ws as [wmode sent].
  name_run r1 H1. model_eval_in H1.
  all: match type of H1 with
       | _ = Ok tt ?W1 =>
           pose proof (eq_refl (ReadAction (Some e) W1)) as H2;
           set (lhs := ReadAction (Some e) W1) in H2 at 1
       end.
  all: model_eval_in H2.
  all: subst r1 lhs; eexists _, _; split; [reflexivity|]; split; [exact H2|].
  all: model_unfold; rewrite ?lookup_insert_eq; calc_added; cbn.
  all: repeat lazymatch goal with |- _ /\ _ => split end; try reflexivity.
  all: intros Hx; try discriminate Hx; reflexivity.
Qed.

(** As [model_eval_in], for runs of the driver: also unfolds [run] and
    [enabled] and computes appends of known lists. *)
Ltac run_eval_in H :=
  repeat (cbv beta iota zeta delta [run enabled Nat.ltb Nat.leb Init.Nat.pred] in H;
    model_unfold_in H;
    try rewrite take_upto_nat in H; try rewrite drop_upto_nat in H;
    try rewrite take_nil in H; try rewrite drop_nil in H;
    rewrite ?lookup_insert_eq in H;
    try match goal with
        | Hh : ?h !! ?p = _ |- _ => rewrite Hh in H
        end;
    cbn [length app] in H;
    repeat (rewrite lookup_insert_eq in H; cbn [length app] in H);
    try match type of H with
        | context [match ?x with _ => _ end] => is_var x; destruct x
        | context [match ?h !! ?p with _ => _ end] => is_var h; destruct (h !! p) eqn:?
        | context [Z.eqb ?a ?b] => destruct (Z.eqb_spec a b); try lia
        | context [Z.ltb ?a ?b] => destruct (Z.ltb_spec a b); try lia
        | context [Nat.eqb ?a ?b] => destruct (Nat.eqb_spec a b); try lia
        | context [Nat.ltb ?a ?b] => destruct (Nat.ltb_spec a b); try lia
        end).

(** X12.  A whole read on an idle endpoint: the owner issues it, the
    allocator grants a slice, [k > 0] bytes arrive and the notifier reports
    "readable".  The run goes through; the caller's buffer holds exactly the
    first [k] bytes that had arrived and the transport keeps the rest; the
    callback has been scheduled once, without error; and the endpoint is
    idle again with the reference count it had, the watchdog off, and the
    counter advanced. *)
Theorem read_round_trip
  (w : World) (p cb : positive) (content : list (list byte)) (now : Z)
  (slice avail : list byte) :
  ep_freed w = false ->
  owner_live w = true ->
  read_cb (ep w) = None ->
  pend_alloc w = [] ->
  refcount (ep w) <> 0 ->
  (0 < length slice `min` length avail)%nat ->
  let k := (length slice `min` length avail)%nat in
  exists w',
    run [ARead p content cb now; DAllocDone None slice;
         ETransportRead (RSData avail); DReadable None] w = Some (Ok tt w')
    /\ heap w' !! p = Some [take k avail]
    /\ rstream w' = RSData (drop k avail)
    /\ scheduled (events_added w w') = [(cb, None)]
    /\ read_cb (ep w') = None /\ read_slices (ep w') = None
    /\ refcount (ep w') = refcount (ep w)
    /\ timer_armed (ep w') = false
    /\ total_bytes_read (ep w') = (total_bytes_read (ep w) + Z.of_nat k) mod 2 ^ 32
    /\ pend_alloc w' = [] /\ pend_readable w' = pend_readable w.
Proof.
  intros Hlive Hol Hcb Hpa Hrc Hk k.
  assert (Hlen : length (take (length slice) avail) = k)
    by (subst k; apply length_take).
  assert (Hdrop : drop (length slice) avail = drop k avail).
  { subst k. destruct (Nat.le_gt_cases (length slice) (length avail)).
    - by replace (length slice `min` length avail)%nat with (length slice) by lia.
    - replace (length slice `min` length avail)%nat with (length avail) by lia.
      rewrite drop_ge by lia. by rewrite drop_ge by lia. }
  world_cases w. name_run r Hr.
  run_eval_in Hr.
  all: subst r; eexists; (split; [reflexivity|]); model_unfold.
  all: rewrite ?lookup_insert_eq, ?Hdrop.
  all: (split; [f_equal; first [ apply filled_then_trimmed; lia
                               | f_equal; apply filled_whole; lia ]|]).
  all: rewrite ?Hlen; calc_added; cbn.
  all: repeat lazymatch goal with |- _ /\ _ => split end; try reflexivity; try lia.
Qed.

End Endpoint.

(** * The theorems at work, and where the specification's wording fails

    The constants are those of gRPC's headers: 8192 bytes for a read slice,
    4 MiB for the maximal message, 14 for the status "unavailable". *)

(** An endpoint just created: the peer is named, nothing has arrived and
    the transport takes nothing yet. *)
Abbreviation ex_created :=
  (created ex_garbage ∅ (RSData []) {| ws_mode := WSAccept 0; ws_sent := [] |}
     1 2 "ipv4:10.0.0.1:443" 3 4).

(** Replaces the closed right-hand side of [H] by its value [v]. *)
Ltac value_in H v :=
  match type of H with
  | _ = ?rhs => replace rhs with v in H by (vm_compute; reflexivity)
  end.

Lemma Ok_inj {A} (a b : A) (w w' : World) : Ok a w = Ok b w' -> w = w'.
Proof. intros H. by injection H. Qed.

Lemma final_Ok {A} (a : A) (w : World) : final (Ok a w) = w.
Proof. reflexivity. Qed.

(** A 64-byte destination, 10 bytes from the transport: success, a
    destination of these 10 bytes, counter 10, and the read's reference
    released. *)
Lemma ReadAction_success_witness :
  let w := after 8192 4194304 14
             [ARead 1 [] 7 1000; DAllocDone None (repeat x00 64);
              ETransportRead (RSData (repeat x41 10))] ex_created in
  let w' := final (ReadAction 14 None w) in
  length (repeat x00 64) = 64%nat
  /\ heap w' !! 1%positive = Some [repeat x41 10]
  /\ total_bytes_read (ep w) = 0
  /\ total_bytes_read (ep w') = 10
  /\ scheduled (events_added w w') = [(7%positive, None)]
  /\ refcount (ep w) = 2
  /\ refcount (ep w') = 1.
Proof.
  intros w w'.
  destruct (ReadAction_success 14 w 7 1 (repeat x00 64) (repeat x41 10))
    as (Ha & _ & Hc & Hd & He & _); try (vm_compute; reflexivity); [vm_compute; lia|].
  fold w' in Ha, Hc, Hd, He.
  value_in Ha (Some [repeat x41 10]). value_in Hc 10. value_in He 1.
  repeat split; try assumption; vm_compute; reflexivity.
Defined.

(** The counter is a [uint32_t]: 10 bytes read at 4294967290 leave it at 4,
    not at 4294967300. *)
Lemma read_success_as_specified_fails : ~ read_success_as_specified 14.
Proof.
  intros H.
  set (w := with_ep (set_total_bytes_read 4294967290)
              (after 8192 4194304 14
                 [ARead 1 [] 7 1000; DAllocDone None (repeat x00 64);
                  ETransportRead (RSData (repeat x41 10))] ex_created)).
  destruct (H w 7%positive 1%positive (repeat x00 64) (repeat x41 10))
    as (_ & Hc & _); try (vm_compute; reflexivity); [vm_compute; lia|].
  assert (E : total_bytes_read (ep (final (ReadAction 14 None w))) = 4)
    by (vm_compute; reflexivity).
  rewrite E in Hc. value_in Hc 4294967300. discriminate Hc.
Qed.

(** A closure used for a read that succeeds and then for a write that is
    drained: two operations issued with it and two invocations; and at the
    moment [CallReadCb] schedules a closure the read slot is already
    empty. *)
Lemma completion_callback_at_most_once_witness :
  let w := after 8192 4194304 14
             [ARead 1 [] 7 1000; DAllocDone None (repeat x00 64)] ex_created in
  let acts := [ARead 1 [] 7 1000; DAllocDone None (repeat x00 64);
               ETransportRead (RSData (repeat x41 10)); DReadable None;
               AWrite 2 [repeat x42 5] 7; ETransportWrite (WSAccept 9);
               DWritable None] in
  let w_end := after 8192 4194304 14 acts ex_created in
  (exists w' o,
      CallReadCb None w = Ok tt w' /\ added w w' = [o]
      /\ ev o = EvClosureSched 7 None
      /\ read_cb (seen o) = None /\ read_slices (seen o) = None
      /\ read_cb (ep w') = None /\ read_slices (ep w') = None)
  /\ (sched_count 7 (trace (final (Ok tt w_end))) <= issued_count 7 acts)%nat
  /\ issued_count 7 acts = 2%nat
  /\ sched_count 7 (trace w_end) = 2%nat.
Proof.
  intros w acts w_end.
  destruct (completion_callback_at_most_once 8192 4194304 14) as (Hr & _ & _ & Hc).
  split; [|split; [|split]].
  - assert (H1 : ep_freed w = false) by (vm_compute; reflexivity).
    assert (H2 : read_cb (ep w) = Some 7%positive) by (vm_compute; reflexivity).
    exact (Hr None w 7%positive H1 H2).
  - assert (H1 : run 8192 4194304 14 acts ex_created = Some (Ok tt w_end))
      by (vm_compute; reflexivity).
    exact (Hc 7%positive acts ex_garbage ∅ (RSData [])
             {| ws_mode := WSAccept 0; ws_sent := [] |} 1%positive 2%positive
             "ipv4:10.0.0.1:443" 3%positive 4%positive (Ok tt w_end) H1).
  - vm_compute. reflexivity.
  - vm_compute. reflexivity.
Defined.

(** Two regions of 50 bytes, a transport that takes 30, then 70, then 50:
    the first notification leaves 20 bytes of the first region in front,
    the second takes those 20 and no more, the third takes the second
    region and only then is the callback scheduled; the transport has the
    100 bytes in order. *)
Lemma write_in_sequence_order_witness :
  let content := [repeat x41 50; repeat x42 50] in
  let w0 := after 8192 4194304 14
              [AWrite 2 content 7; ETransportWrite (WSAccept 30)] ex_created in
  let w2 := after 8192 4194304 14
              (AWrite 2 content 7 :: write_notifications [30; 70]%nat) ex_created in
  let w3 := after 8192 4194304 14
              (AWrite 2 content 7 :: write_notifications [30; 70; 50]%nat) ex_created in
  (exists w1,
      WriteAction 14 None w0 = Ok tt w1
      /\ ws_sent (wstream w1) = repeat x41 30
      /\ heap w1 !! 2%positive = Some [repeat x41 20; repeat x42 50]
      /\ events_added w0 w1 = [EvWriteStreamWrite (repeat x41 30) 30; EvNotifyOnWrite]
      /\ ep w1 = ep w0)
  /\ (sched_count 7 (trace w2) = 0%nat
      /\ write_cb (ep w2) = Some 7%positive
      /\ ws_sent (wstream w2) = repeat x41 50
      /\ heap w2 !! 2%positive = Some [repeat x42 50])
  /\ (sched_count 7 (trace w3) = 1%nat
      /\ write_cb (ep w3) = None
      /\ ws_sent (wstream w3) = repeat x41 50 ++ repeat x42 50).
Proof.
  intros content w0 w2 w3.
  destruct (write_in_sequence_order 8192 4194304 14) as (Hstep & Hrun).
  split; [|split].
  - destruct (Hstep w0 7%positive 2%positive (repeat x41 50) [repeat x42 50] 30%nat)
      as (w1 & Hr & Hs & _ & Hpart & _ & _); try (vm_compute; reflexivity).
    destruct Hpart as (Hh & Hev & Hep & _); [vm_compute; lia|].
    value_in Hs (repeat x41 30).
    value_in Hh (Some [repeat x41 20; repeat x42 50]).
    value_in Hev [EvWriteStreamWrite (repeat x41 30) 30; EvNotifyOnWrite].
    exists w1. repeat split; assumption.
  - destruct (Hrun ex_created 7%positive 2%positive content [30; 70]%nat (Ok tt w2))
      as (w' & Hw' & Hres); try (vm_compute; reflexivity); [discriminate|].
    apply Ok_inj in Hw'. subst w'.
    assert (E : write_cb (ep w2) = Some 7%positive) by (vm_compute; reflexivity).
    destruct Hres as [(Hsc & Hcb & rem' & Hh & Hs)|(_ & Hcb & _)];
      [|rewrite E in Hcb; discriminate Hcb].
    value_in Hsc 0%nat.
    repeat split; try assumption; vm_compute; reflexivity.
  - destruct (Hrun ex_created 7%positive 2%positive content [30; 70; 50]%nat (Ok tt w3))
      as (w' & Hw' & Hres); try (vm_compute; reflexivity); [discriminate|].
    apply Ok_inj in Hw'. subst w'.
    assert (E : write_cb (ep w3) = None) by (vm_compute; reflexivity).
    destruct Hres as [(_ & Hcb & _)|(Hsc & Hcb & Hs)];
      [rewrite E in Hcb; discriminate Hcb|].
    value_in Hsc 1%nat. value_in Hs (repeat x41 50 ++ repeat x42 50).
    repeat split; assumption.
Defined.

(** A region of two bytes followed by an empty region, and a transport
    that takes the two bytes: a region is left in the sequence, and the
    callback is scheduled all the same, since no byte is left. *)
Lemma write_completion_as_specified_fails : ~ write_completion_as_specified 14.
Proof.
  intros H.
  set (w := after 8192 4194304 14
              [AWrite 2 [[x41; x42]; []] 7; ETransportWrite (WSAccept 9)] ex_created).
  destruct (H w 7%positive 2%positive [x41; x42] [[]] 9%nat) as (Hmore & _);
    try (vm_compute; reflexivity); [vm_compute; lia|].
  assert (E : scheduled (events_added w (final (WriteAction 14 None w)))
              = [(7%positive, None)])
    by (vm_compute; reflexivity).
  destruct Hmore as (Hs & _); [discriminate|].
  rewrite E in Hs. discriminate Hs.
Qed.

(** A transfer failure with an error object of the transport is delivered
    with the peer and the status; one without is delivered bare; neither is
    retried. *)
Lemma transfer_errors_delivered_witness :
  let cf := {| cf_domain := "NSPOSIXErrorDomain"; cf_code := 54 |} in
  let pending := [ARead 1 [] 7 1000; DAllocDone None (repeat x00 64)] in
  let w1 := after 8192 4194304 14 (pending ++ [ETransportRead (RSFailed (Some cf))])
              ex_created in
  let w2 := after 8192 4194304 14 (pending ++ [ETransportRead (RSFailed None)])
              ex_created in
  let w3 := after 8192 4194304 14
              [AWrite 2 [repeat x42 5] 8; ETransportWrite (WSFailed (Some cf))]
              ex_created in
  (exists e,
      scheduled (events_added w1 (final (ReadAction 14 None w1))) = [(7%positive, Some e)]
      /\ err_desc e = "Read error" /\ err_cause e = Some cf
      /\ annotated 14 "ipv4:10.0.0.1:443" e)
  /\ scheduled (events_added w2 (final (ReadAction 14 None w2)))
     = [(7%positive, Some (GRPC_ERROR_CREATE_FROM_STATIC_STRING "Read error"))]
  /\ registrations (events_added w2 (final (ReadAction 14 None w2))) = 0%nat
  /\ transfer_attempts (events_added w2 (final (ReadAction 14 None w2))) = 1%nat
  /\ (exists e,
      scheduled (events_added w3 (final (WriteAction 14 None w3))) = [(8%positive, Some e)]
      /\ err_desc e = "write failed." /\ err_cause e = Some cf
      /\ annotated 14 "ipv4:10.0.0.1:443" e).
Proof.
  intros cf pending w1 w2 w3.
  destruct (transfer_errors_delivered 14) as (Hread & Hwrite).
  assert (Ep1 : peer_string (ep w1) = "ipv4:10.0.0.1:443") by (vm_compute; reflexivity).
  assert (Ep3 : peer_string (ep w3) = "ipv4:10.0.0.1:443") by (vm_compute; reflexivity).
  assert (A1 : ep_freed w1 = false) by (vm_compute; reflexivity).
  assert (B1 : read_cb (ep w1) = Some 7%positive) by (vm_compute; reflexivity).
  assert (C1 : read_slices (ep w1) = Some 1%positive) by (vm_compute; reflexivity).
  assert (D1 : heap w1 !! 1%positive = Some [repeat x00 64]) by (vm_compute; reflexivity).
  assert (E1 : rstream w1 = RSFailed (Some cf)) by (vm_compute; reflexivity).
  assert (A2 : ep_freed w2 = false) by (vm_compute; reflexivity).
  assert (B2 : read_cb (ep w2) = Some 7%positive) by (vm_compute; reflexivity).
  assert (C2 : read_slices (ep w2) = Some 1%positive) by (vm_compute; reflexivity).
  assert (D2 : heap w2 !! 1%positive = Some [repeat x00 64]) by (vm_compute; reflexivity).
  assert (E2 : rstream w2 = RSFailed None) by (vm_compute; reflexivity).
  assert (A3 : ep_freed w3 = false) by (vm_compute; reflexivity).
  assert (B3 : write_cb (ep w3) = Some 8%positive) by (vm_compute; reflexivity).
  assert (C3 : write_slices (ep w3) = Some 2%positive) by (vm_compute; reflexivity).
  assert (D3 : heap w3 !! 2%positive = Some [repeat x42 5]) by (vm_compute; reflexivity).
  assert (E3 : ws_mode (wstream w3) = WSFailed (Some cf)) by (vm_compute; reflexivity).
  pose proof (Hread w1 7%positive 1%positive (repeat x00 64) A1 B1 C1 D1) as H1.
  pose proof (Hread w2 7%positive 1%positive (repeat x00 64) A2 B2 C2 D2) as H2.
  pose proof (Hwrite w3 8%positive 2%positive (repeat x42 5) [] A3 B3 C3 D3) as H3.
  rewrite E1 in H1. rewrite E2 in H2. rewrite E3 in H3.
  destruct H1 as (_ & _ & _ & e1 & H1a & H1b & H1c & H1d). rewrite Ep1 in H1d.
  destruct H2 as (H2a & H2b & _ & H2d).
  destruct H3 as (_ & _ & _ & e3 & H3a & H3b & H3c & H3d). rewrite Ep3 in H3d.
  split; [|split; [|split; [|split]]].
  - exists e1. split; [exact H1a|split; [exact H1b|split; [exact H1c|exact H1d]]].
  - exact H2d.
  - exact H2b.
  - exact H2a.
  - exists e3. split; [exact H3a|split; [exact H3b|split; [exact H3c|exact H3d]]].
Defined.

(** A read that fails while the transport has no error object for it: the
    callback gets the bare "Read error", without peer and without status. *)
Lemma transfer_errors_as_specified_fails : ~ transfer_errors_as_specified 14.
Proof.
  intros (Hread & _).
  set (w := after 8192 4194304 14
              [ARead 1 [] 7 1000; DAllocDone None (repeat x00 64);
               ETransportRead (RSFailed None)] ex_created).
  pose proof (Hread w 7%positive 1%positive (repeat x00 64)) as H.
  assert (E : scheduled (events_added w (final (ReadAction 14 None w)))
              = [(7%positive, Some (GRPC_ERROR_CREATE_FROM_STATIC_STRING "Read error"))])
    by (vm_compute; reflexivity).
  rewrite E in H.
  assert (H1 : ep_freed w = false) by (vm_compute; reflexivity).
  assert (H2 : read_cb (ep w) = Some 7%positive) by (vm_compute; reflexivity).
  assert (H3 : read_slices (ep w) = Some 1%positive) by (vm_compute; reflexivity).
  assert (H4 : heap w !! 1%positive = Some [repeat x00 64]) by (vm_compute; reflexivity).
  assert (H5 : rstream w = RSFailed None) by (vm_compute; reflexivity).
  assert (H6 : (exists err, rstream w = RSFailed err) \/ rstream w = RSData [])
    by (left; exists None; exact H5).
  destruct (H H1 H2 H3 H4 H6 7%positive
              (GRPC_ERROR_CREATE_FROM_STATIC_STRING "Read error")
              (list_elem_of_here _ _)) as (Hst & _).
  discriminate Hst.
Qed.

(** The failing input of C5: a read waits for its notification with the
    watchdog armed for second 61, and the notifier delivers an error.  The
    callback is scheduled with the error, and the watchdog is still armed
    with its deadline: it will abort the process, although the read has
    completed. *)
Lemma ReadAction_notifier_error_leaves_watchdog_witness :
  let why := GRPC_ERROR_CREATE_FROM_STATIC_STRING "Endpoint shutdown" in
  let w := after 8192 4194304 14
             [ARead 1 [] 7 1000; DAllocDone None (repeat x00 64)] ex_created in
  let w' := final (ReadAction 14 (Some why) w) in
  timer_armed (ep w) = true
  /\ timer_deadline w = Some 61000
  /\ scheduled (events_added w w') = [(7%positive, Some why)]
  /\ timer_cancels (events_added w w') = 0%nat
  /\ timer_armed (ep w') = true
  /\ timer_deadline w' = Some 61000
  /\ enabled DTimerFired w' = true
  /\ returned (perform 8192 4194304 14 DTimerFired w') = false.
Proof.
  intros why w w'.
  destruct (ReadAction_notifier_error_leaves_watchdog 14 why w 7 1 [repeat x00 64])
    as (Hs & _ & Hc & _ & Ha & Hd & _); try (vm_compute; reflexivity).
  fold w' in Hs, Hc, Ha, Hd.
  value_in Ha true. value_in Hd (Some 61000).
  split; [vm_compute; reflexivity|]. split; [vm_compute; reflexivity|].
  split; [exact Hs|]. split; [exact Hc|]. split; [exact Ha|]. split; [exact Hd|].
  split; vm_compute; reflexivity.
Defined.

(** A read and a write in flight when the owner destroys the endpoint: the
    count is 2, one for each, and the endpoint is still there. *)
Lemma continuations_of_operations_hold_references_witness :
  let acts := [ARead 1 [] 7 1000; AWrite 2 [repeat x42 5] 8;
               DAllocDone None (repeat x00 64); ADestroy] in
  let w := after 8192 4194304 14 acts ex_created in
  refcount (ep w) = 2
  /\ owner_live w = false
  /\ read_outstanding w = 1%nat
  /\ write_outstanding w = 1%nat
  /\ ep_freed w = false
  /\ (ep_freed w = true <-> refcount (ep w) = 0).
Proof.
  intros acts w.
  destruct (continuations_of_operations_hold_references 8192 4194304 14
              ex_garbage ∅ (RSData []) {| ws_mode := WSAccept 0; ws_sent := [] |}
              1 2 "ipv4:10.0.0.1:443" 3 4 acts w)
    as (Hrc & Hrd & Hwr & Hfr & Hlive); [vm_compute; reflexivity|].
  value_in Hrc 2. value_in Hrd 1%nat. value_in Hwr 1%nat.
  split; [exact Hrc|]. split; [vm_compute; reflexivity|].
  split; [exact Hrd|]. split; [exact Hwr|].
  split; [|exact Hfr].
  apply Hlive. rewrite Hrd, Hwr. repeat constructor.
Defined.

(** The watchdog's closure holds no reference: a read is issued, the
    allocator fails, the owner destroys the endpoint, and the endpoint is
    freed while the timer is still running. *)
Lemma every_continuation_holds_a_reference_fails :
  ~ every_continuation_holds_a_reference 8192 4194304 14.
Proof.
  intros H.
  set (acts := [ARead 1 [] 7 1000; DAllocDone (Some GRPC_ERROR_CANCELLED) []; ADestroy]).
  set (w := after 8192 4194304 14 acts ex_created).
  destruct (H ex_garbage ∅ (RSData []) {| ws_mode := WSAccept 0; ws_sent := [] |}
              1%positive 2%positive "ipv4:10.0.0.1:443" 3%positive 4%positive acts w)
    as (_ & Hlive); [vm_compute; reflexivity|].
  assert (Ef : ep_freed w = true) by (vm_compute; reflexivity).
  assert (Et : timer_deadline w = Some 61000) by (vm_compute; reflexivity).
  assert (Eo : (read_outstanding w + write_outstanding w + timer_outstanding w)%nat = 1%nat)
    by (vm_compute; reflexivity).
  rewrite Eo, Ef in Hlive.
  discriminate (Hlive (le_n 1)).
Qed.

(** Shutdown with a read in flight and the watchdog armed: the timer is
    cancelled under the mutex, both directions are closed, the notifier and
    the resource user are told; the count stays at 2 and the read's slot is
    as it was. *)
Lemma CFStreamShutdown_effects_witness :
  let why := Some (GRPC_ERROR_CREATE_FROM_STATIC_STRING "Endpoint shutdown") in
  let w := after 8192 4194304 14
             [ARead 1 [] 7 1000; DAllocDone None (repeat x00 64)] ex_created in
  exists w',
    CFStreamShutdown why w = Ok tt w'
    /\ events_added w w' =
         [EvMuLock; EvTimerCancel; EvMuUnlock; EvReadStreamClose;
          EvWriteStreamClose; EvHandleShutdown why; EvResourceUserShutdown]
    /\ ep w' = set_mu_held false (set_timer_armed false (ep w))
    /\ refcount (ep w) = 2
    /\ read_cb (ep w) = Some 7%positive
    /\ ep_freed w' = false
    /\ timer_deadline w' = None.
Proof.
  intros why w.
  assert (Hlive : ep_freed w = false) by (vm_compute; reflexivity).
  destruct (CFStreamShutdown_effects why w Hlive)
    as (w' & Hr & Hev & _ & _ & Hep & Hfr & Htd & _).
  value_in Hev [EvMuLock; EvTimerCancel; EvMuUnlock; EvReadStreamClose;
                EvWriteStreamClose; EvHandleShutdown why; EvResourceUserShutdown].
  value_in Htd (@None Z).
  exists w'.
  split; [exact Hr|]. split; [exact Hev|]. split; [exact Hep|].
  split; [vm_compute; reflexivity|]. split; [vm_compute; reflexivity|].
  split; [exact Hfr|exact Htd].
Defined.


(** A cancelled timer's closure changes nothing; after a shutdown, and
    after a read that has completed with data, no deadline is left. *)
Lemma err_cb_with_error_returns_witness :
  let pending := after 8192 4194304 14
                   [ARead 1 [] 7 1000; DAllocDone None (repeat x00 64);
                    ETransportRead (RSData (repeat x41 10))] ex_created in
  let issued := after 8192 4194304 14 [ARead 1 [] 7 1000] ex_created in
  let refused := final (CFStreamReadAllocationDone (Some GRPC_ERROR_CANCELLED) issued) in
  err_cb 4194304 (Some GRPC_ERROR_CANCELLED) pending = Ok tt pending
  /\ enabled DTimerFired pending = true
  /\ enabled DTimerFired (final (CFStreamShutdown None pending)) = false
  /\ returned (ReadAction 14 None pending) = true
  /\ enabled DTimerFired (final (ReadAction 14 None pending)) = false
  /\ scheduled (events_added issued refused) = [(7%positive, Some GRPC_ERROR_CANCELLED)]
  /\ read_cb (ep refused) = None
  /\ timer_deadline refused = Some 61000
  /\ enabled DTimerFired refused = true.
Proof.
  intros pending issued refused.
  destruct (err_cb_with_error_returns 8192 4194304 14)
    as (Herr & _ & Hshut & Hread & Hrefused).
  assert (A' : ep_freed issued = false) by (vm_compute; reflexivity).
  assert (C' : read_cb (ep issued) = Some 7%positive) by (vm_compute; reflexivity).
  assert (D' : read_slices (ep issued) = Some 1%positive) by (vm_compute; reflexivity).
  assert (E' : heap issued !! 1%positive = Some []) by (vm_compute; reflexivity).
  destruct (Hrefused GRPC_ERROR_CANCELLED issued 7%positive 1%positive [] A' C' D' E')
    as (_ & Hs & Hcb & _ & Htd & Hen).
  fold refused in Hs, Hcb, Htd, Hen.
  value_in Htd (Some 61000). value_in Hen true.
  assert (A : ep_freed pending = false) by (vm_compute; reflexivity).
  assert (B : timer_armed (ep pending) = true) by (vm_compute; reflexivity).
  assert (C : read_cb (ep pending) = Some 7%positive) by (vm_compute; reflexivity).
  assert (D : read_slices (ep pending) = Some 1%positive) by (vm_compute; reflexivity).
  assert (E : heap pending !! 1%positive = Some [repeat x00 64]) by (vm_compute; reflexivity).
  assert (F : refcount (ep pending) <> 1).
  { assert (G : refcount (ep pending) = 2) by (vm_compute; reflexivity).
    rewrite G. discriminate. }
  split; [exact (Herr GRPC_ERROR_CANCELLED pending)|].
  split; [vm_compute; reflexivity|].
  split; [exact (Hshut pending None A B)|].
  destruct (Hread pending 7%positive 1%positive (repeat x00 64) A C D E F B)
    as (Hret & Hoff).
  split; [exact Hret|]. split; [exact Hoff|].
  split; [exact Hs|]. split; [exact Hcb|]. split; [exact Htd|exact Hen].
Defined.

(** A read is issued and the allocator refuses the slice: the read has
    completed, its callback is scheduled with the allocator's error and no
    read is pending, and the timer is still running. *)
Lemma cancelled_watchdog_as_specified_fails :
  ~ cancelled_watchdog_as_specified 8192 4194304 14.
Proof.
  intros (_ & H).
  set (acts := [ARead 1 [] 7 1000; DAllocDone (Some GRPC_ERROR_CANCELLED) []]).
  set (w := after 8192 4194304 14 acts ex_created).
  destruct (H ex_garbage ∅ (RSData []) {| ws_mode := WSAccept 0; ws_sent := [] |}
              1%positive 2%positive "ipv4:10.0.0.1:443" 3%positive 4%positive acts w)
    as (Hread & _); [vm_compute; reflexivity|].
  assert (E1 : read_cb (ep w) = None) by (vm_compute; reflexivity).
  assert (E2 : enabled DTimerFired w = true) by (vm_compute; reflexivity).
  rewrite E2 in Hread. discriminate (Hread E1).
Qed.

(** An endpoint made in stale memory, and destroyed at once: the count
    starts at 1, the fields are set, and the single release frees it. *)
Lemma create_then_destroy_witness :
  let w := ex_created in
  ep w =
    {| refcount := 1; read_stream := 1; write_stream := 2; stream_sync := 4;
       read_cb := None; write_cb := None; read_slices := None; write_slices := None;
       peer_string := "ipv4:10.0.0.1:443";
       resource_user := {| ru_quota := 3; ru_name := "ipv4:10.0.0.1:443" |};
       mu_held := false; timer_armed := false; total_bytes_read := 0 |}
  /\ exists w',
      CFStreamDestroy w = Ok tt w'
      /\ refcount (ep w') = 0
      /\ ep_freed w' = true
      /\ events_added w w' =
           [EvResourceUserUnref; EvCFRelease 1; EvCFRelease 2; EvHandleUnref 4;
            EvFreePeerString; EvFreeEndpoint].
Proof.
  intros w.
  destruct create_then_destroy as (Hcreate & _ & Hdestroy).
  destruct (Hcreate ex_garbage ∅ (RSData []) {| ws_mode := WSAccept 0; ws_sent := [] |}
              1%positive 2%positive "ipv4:10.0.0.1:443" 3%positive 4%positive)
    as (w0 & Hc & Hep & _).
  assert (Ew : w = w0) by (unfold w, created; rewrite Hc; reflexivity).
  assert (A : ep_freed w = false) by (vm_compute; reflexivity).
  destruct (Hdestroy w A) as (w' & Hr & Hep' & Hfr & Hev).
  split; [rewrite Ew; exact Hep|].
  exists w'. split; [exact Hr|].
  split; [rewrite Hep'; vm_compute; reflexivity|].
  split; [apply Hfr; vm_compute; reflexivity|].
  value_in Hev [EvResourceUserUnref; EvCFRelease 1; EvCFRelease 2; EvHandleUnref 4;
                EvFreePeerString; EvFreeEndpoint].
  exact Hev.
Defined.

(** * The further properties at work *)

(** The owner destroys the endpoint while a read waits for its
    notification; when the notification comes, 10 bytes are read, the
    callback is scheduled, and the endpoint is freed by [ReadAction] itself,
    which then reaches for the mutex of the freed endpoint. *)
Lemma ReadAction_last_reference_use_after_free_witness :
  let w := after 8192 4194304 14
             [ARead 1 [] 7 1000; DAllocDone None (repeat x00 64); ADestroy;
              ETransportRead (RSData (repeat x41 10))] ex_created in
  refcount (ep w) = 1
  /\ exists w',
      ReadAction 14 None w = Halt UseAfterFree w'
      /\ ep_freed w' = true
      /\ exists err, scheduled (events_added w w') = [(7%positive, err)].
Proof.
  intros w.
  assert (A : ep_freed w = false) by (vm_compute; reflexivity).
  assert (B : read_cb (ep w) = Some 7%positive) by (vm_compute; reflexivity).
  assert (C : read_slices (ep w) = Some 1%positive) by (vm_compute; reflexivity).
  assert (D : heap w !! 1%positive = Some [repeat x00 64]) by (vm_compute; reflexivity).
  assert (E : refcount (ep w) = 1) by (vm_compute; reflexivity).
  destruct (ReadAction_last_reference_use_after_free 14 w 7%positive 1%positive
              (repeat x00 64) A B C D E) as (w' & Hr & Hf & Hs).
  split; [exact E|]. exists w'.
  split; [exact Hr|]. split; [exact Hf|exact Hs].
Defined.

(** The owner destroys the endpoint while a write of 5 bytes is pending and
    the transport takes them.  Without tracing, [WriteAction] schedules the
    callback, frees the endpoint with the write's reference, and returns;
    with tracing it goes on to read the peer string of the freed
    endpoint. *)
Lemma WriteAction_after_release_witness :
  let w := after 8192 4194304 14
             [AWrite 2 [repeat x42 5] 8; ADestroy; ETransportWrite (WSAccept 9)]
             ex_created in
  (exists w',
      WriteAction_tracing 14 false None w = Ok tt w'
      /\ ep_freed w' = true
      /\ refcount (ep w) = 1
      /\ exists err, scheduled (events_added w w') = [(8%positive, err)])
  /\ (exists w',
        WriteAction_tracing 14 true None w = Halt UseAfterFree w'
        /\ ep_freed w' = true
        /\ scheduled (events_added w w') = [(8%positive, None)]
        /\ ws_sent (wstream w') = repeat x42 5).
Proof.
  intros w.
  assert (A : ep_freed w = false) by (vm_compute; reflexivity).
  assert (B : write_cb (ep w) = Some 8%positive) by (vm_compute; reflexivity).
  assert (C : write_slices (ep w) = Some 2%positive) by (vm_compute; reflexivity).
  assert (D : heap w !! 2%positive = Some [repeat x42 5]) by (vm_compute; reflexivity).
  destruct (WriteAction_after_release 14 w 8%positive 2%positive (repeat x42 5) [] A B C D)
    as (Hoff & Hon).
  split.
  - assert (E : ep_freed (final (WriteAction_tracing 14 false None w)) = true)
      by (vm_compute; reflexivity).
    destruct (Hoff None) as (w' & Hr & Hfree & _).
    rewrite Hr in E. rewrite final_Ok in E.
    destruct (Hfree E) as (Hrc & Hs).
    exists w'. split; [exact Hr|]. split; [exact E|]. split; [exact Hrc|exact Hs].
  - assert (F : ws_mode (wstream w) = WSAccept 9) by (vm_compute; reflexivity).
    assert (G : (length (repeat x42 5) <= 9)%nat) by (vm_compute; lia).
    assert (H : sb_length (@nil (list byte)) = 0%nat) by reflexivity.
    assert (I : refcount (ep w) = 1) by (vm_compute; reflexivity).
    destruct (Hon 9%nat F G H I) as (w' & Hr & Hf & Hs & Hsent).
    value_in Hsent (repeat x42 5).
    exists w'. split; [exact Hr|]. split; [exact Hf|]. split; [exact Hs|exact Hsent].
Defined.

(** A second read while the first waits for its notification: the process
    stops at the assertion; the first read's closure is still in its slot
    and the watchdog keeps its deadline. *)
Lemma CFStreamRead_overlapping_witness :
  let w := after 8192 4194304 14
             [ARead 1 [] 7 1000; DAllocDone None (repeat x00 64)] ex_created in
  exists w',
    CFStreamRead 8192 5 9 2000 w = Halt AssertFailed w'
    /\ read_cb (ep w') = Some 7%positive
    /\ read_slices (ep w') = Some 1%positive
    /\ refcount (ep w') = 2
    /\ timer_deadline w' = Some 61000.
Proof.
  intros w.
  assert (A : ep_freed w = false) by (vm_compute; reflexivity).
  assert (B : read_cb (ep w) = Some 7%positive) by (vm_compute; reflexivity).
  assert (Hlo : - 2 ^ 63 <= 2000) by lia.
  assert (Hhi : 2000 + 60000 < 2 ^ 63) by lia.
  destruct (CFStreamRead_overlapping 8192 w 5%positive 9%positive 7%positive 2000
              A B Hlo Hhi)
    as (w' & Hr & Hcb & Hsl & Hrc & _ & _ & _ & Htd).
  value_in Hsl (Some 1%positive). value_in Hrc 2. value_in Htd (Some 61000).
  exists w'. split; [exact Hr|]. split; [exact Hcb|]. split; [exact Hsl|].
  split; [exact Hrc|exact Htd].
Defined.

(** A second write while the first is pending stops the process and
    changes nothing. *)
Lemma CFStreamWrite_overlapping_witness :
  let w := after 8192 4194304 14 [AWrite 2 [repeat x42 5] 8] ex_created in
  write_cb (ep w) = Some 8%positive
  /\ CFStreamWrite 3 9 w = Halt AssertFailed w.
Proof.
  intros w.
  assert (A : ep_freed w = false) by (vm_compute; reflexivity).
  assert (B : write_cb (ep w) = Some 8%positive) by (vm_compute; reflexivity).
  split; [exact B|].
  exact (CFStreamWrite_overlapping w 3%positive 9%positive 8%positive A B).
Defined.

(** The allocator refuses the slice of a read issued at millisecond 1000:
    the read's callback gets the allocator's error, the count is back at 1,
    and the watchdog is still set for millisecond 61000. *)
Lemma CFStreamReadAllocationDone_effects_witness :
  let w := after 8192 4194304 14 [ARead 1 [] 7 1000] ex_created in
  exists w',
    CFStreamReadAllocationDone (Some GRPC_ERROR_CANCELLED) w = Ok tt w'
    /\ scheduled (events_added w w') = [(7%positive, Some GRPC_ERROR_CANCELLED)]
    /\ read_cb (ep w') = None
    /\ refcount (ep w') = 1
    /\ timer_armed (ep w') = true
    /\ timer_deadline w' = Some 61000.
Proof.
  intros w.
  destruct CFStreamReadAllocationDone_effects as (_ & Hfail).
  assert (A : ep_freed w = false) by (vm_compute; reflexivity).
  assert (B : read_cb (ep w) = Some 7%positive) by (vm_compute; reflexivity).
  assert (C : read_slices (ep w) = Some 1%positive) by (vm_compute; reflexivity).
  assert (D : heap w !! 1%positive = Some []) by (vm_compute; reflexivity).
  destruct (Hfail GRPC_ERROR_CANCELLED w 7%positive 1%positive [] A B C D)
    as (w' & Hr & Hs & _ & _ & _ & _ & Hcb & _ & Hrc & Harm & Htd).
  value_in Hrc 1. value_in Harm true. value_in Htd (Some 61000).
  exists w'. split; [exact Hr|]. split; [exact Hs|]. split; [exact Hcb|].
  split; [exact Hrc|]. split; [exact Harm|exact Htd].
Defined.

(** The notifier answers a pending write of 5 bytes with an error: the
    callback gets that error, the 5 bytes are dropped and the transport has
    received nothing. *)
Lemma WriteAction_notifier_error_witness :
  let w := after 8192 4194304 14 [AWrite 2 [repeat x42 5] 8] ex_created in
  exists w',
    WriteAction 14 (Some GRPC_ERROR_CANCELLED) w = Ok tt w'
    /\ scheduled (events_added w w') = [(8%positive, Some GRPC_ERROR_CANCELLED)]
    /\ transfer_attempts (events_added w w') = 0%nat
    /\ heap w' !! 2%positive = Some []
    /\ ws_sent (wstream w') = []
    /\ refcount (ep w') = 1.
Proof.
  intros w.
  assert (A : ep_freed w = false) by (vm_compute; reflexivity).
  assert (B : write_cb (ep w) = Some 8%positive) by (vm_compute; reflexivity).
  assert (C : write_slices (ep w) = Some 2%positive) by (vm_compute; reflexivity).
  assert (D : heap w !! 2%positive = Some [repeat x42 5]) by (vm_compute; reflexivity).
  destruct (WriteAction_notifier_error 14 GRPC_ERROR_CANCELLED w 8%positive 2%positive
              [repeat x42 5] A B C D)
    as (w' & Hr & Hs & Ht & _ & Hh & Hws & _ & _ & Hrc).
  value_in Hrc 1.
  assert (Esent : ws_sent (wstream w) = []) by (vm_compute; reflexivity).
  exists w'. split; [exact Hr|]. split; [exact Hs|]. split; [exact Ht|].
  split; [exact Hh|]. split; [rewrite Hws; exact Esent|exact Hrc].
Defined.

(** On an endpoint just created no operation is pending: either
    notification stops the process at the assertion. *)
Lemma stray_notification_asserts_witness :
  ReadAction 14 None ex_created = Halt AssertFailed ex_created
  /\ WriteAction 14 (Some GRPC_ERROR_CANCELLED) ex_created
     = Halt AssertFailed ex_created.
Proof.
  assert (A : ep_freed ex_created = false) by (vm_compute; reflexivity).
  assert (B : read_cb (ep ex_created) = None) by (vm_compute; reflexivity).
  assert (C : write_cb (ep ex_created) = None) by (vm_compute; reflexivity).
  destruct (stray_notification_asserts 14 None ex_created A) as (Hr & _).
  destruct (stray_notification_asserts 14 (Some GRPC_ERROR_CANCELLED) ex_created A)
    as (_ & Hw).
  split; [exact (Hr B)|exact (Hw C)].
Defined.

(** An error that already carries status 2 and another integer property:
    after the annotation its status is 14, the peer is the endpoint's, and
    the other property and the description are as before. *)
Lemma CFStreamAnnotateError_effects_witness :
  let src := grpc_error_set_int
               (grpc_error_set_int (GRPC_ERROR_CREATE_FROM_STATIC_STRING "Read error")
                  GRPC_ERROR_INT_GRPC_STATUS 2)
               (GRPC_ERROR_INT_OTHER 5) 54 in
  exists e,
    CFStreamAnnotateError 14 src ex_created = Ok e ex_created
    /\ grpc_error_get_int e GRPC_ERROR_INT_GRPC_STATUS = Some 14
    /\ grpc_error_get_str e GRPC_ERROR_STR_TARGET_ADDRESS = Some "ipv4:10.0.0.1:443"
    /\ grpc_error_get_int e (GRPC_ERROR_INT_OTHER 5) = Some 54
    /\ err_desc e = "Read error".
Proof.
  intros src.
  assert (A : ep_freed ex_created = false) by (vm_compute; reflexivity).
  destruct (CFStreamAnnotateError_effects 14 src ex_created A)
    as (e & Hr & (Hst & Hpeer) & Hd & _ & Hint & _).
  assert (Hk : GRPC_ERROR_INT_OTHER 5 <> GRPC_ERROR_INT_GRPC_STATUS) by discriminate.
  pose proof (Hint (GRPC_ERROR_INT_OTHER 5) Hk) as Ho.
  value_in Hpeer (Some "ipv4:10.0.0.1:443"). value_in Ho (Some 54).
  value_in Hd "Read error".
  exists e. split; [exact Hr|]. split; [exact Hst|]. split; [exact Hpeer|].
  split; [exact Ho|exact Hd].
Defined.


(** After a write that is drained and a shutdown, the endpoint still
    stands for the streams, the notifier and the peer it was created with,
    and [CFStreamGetPeer] answers with that peer. *)
Lemma connection_fixed_at_creation_witness :
  let acts := [AWrite 2 [repeat x42 5] 8; ETransportWrite (WSAccept 9);
               DWritable None; AShutdown None] in
  let w := after 8192 4194304 14 acts ex_created in
  connection_of (ep w)
  = (1%positive, 2%positive, 4%positive, "ipv4:10.0.0.1:443",
     {| ru_quota := 3; ru_name := "ipv4:10.0.0.1:443" |})
  /\ (exists w',
        CFStreamGetPeer w = Ok "ipv4:10.0.0.1:443" w'
        /\ events_added w w' = [EvStrdup "ipv4:10.0.0.1:443"]
        /\ ep w' = ep w)
  /\ CFStreamGetResourceUser w
     = Ok {| ru_quota := 3; ru_name := "ipv4:10.0.0.1:443" |} w.
Proof.
  intros acts w.
  assert (H1 : run 8192 4194304 14 acts ex_created = Some (Ok tt w))
    by (vm_compute; reflexivity).
  assert (A : ep_freed w = false) by (vm_compute; reflexivity).
  destruct (connection_fixed_at_creation 8192 4194304 14
              ex_garbage ∅ (RSData []) {| ws_mode := WSAccept 0; ws_sent := [] |}
              1%positive 2%positive "ipv4:10.0.0.1:443" 3%positive 4%positive
              acts (Ok tt w) H1)
    as (Hc & Hget).
  rewrite final_Ok in Hc, Hget.
  destruct (Hget A) as (Hpeer & Hru).
  split; [exact Hc|]. split; [exact Hpeer|exact Hru].
Defined.

(** Shutdown while a read issued at millisecond 1000 waits for its
    notification, then the notifier's answer: the callback gets the error,
    the count is back at 1 and no timer is left. *)
Lemma shutdown_then_read_notification_witness :
  let why := Some (GRPC_ERROR_CREATE_FROM_STATIC_STRING "Endpoint shutdown") in
  let w := after 8192 4194304 14
             [ARead 1 [] 7 1000; DAllocDone None (repeat x00 64)] ex_created in
  exists w1 w2,
    CFStreamShutdown why w = Ok tt w1
    /\ ReadAction 14 (Some GRPC_ERROR_CANCELLED) w1 = Ok tt w2
    /\ scheduled (events_added w1 w2) = [(7%positive, Some GRPC_ERROR_CANCELLED)]
    /\ timer_cancels (events_added w w1) = 1%nat
    /\ timer_armed (ep w2) = false
    /\ timer_deadline w2 = None
    /\ refcount (ep w2) = 1.
Proof.
  intros why w.
  assert (A : ep_freed w = false) by (vm_compute; reflexivity).
  assert (B : read_cb (ep w) = Some 7%positive) by (vm_compute; reflexivity).
  assert (C : read_slices (ep w) = Some 1%positive) by (vm_compute; reflexivity).
  assert (D : heap w !! 1%positive = Some [repeat x00 64]) by (vm_compute; reflexivity).
  assert (E : timer_armed (ep w) = true) by (vm_compute; reflexivity).
  destruct (shutdown_then_read_notification 14 why GRPC_ERROR_CANCELLED w 7%positive
              1%positive [repeat x00 64] A B C D)
    as (w1 & w2 & H1 & H2 & _ & Hs & Hc & Harm & Htd & _ & _ & Hrc).
  value_in Hc 1%nat. value_in Hrc 1.
  exists w1, w2. split; [exact H1|]. split; [exact H2|]. split; [exact Hs|].
  split; [exact Hc|]. split; [exact Harm|]. split; [exact (Htd E)|exact Hrc].
Defined.

(** A read on the endpoint just created, a slice of 64 bytes, 10 bytes
    from the transport: the caller's buffer holds the 10 bytes, the
    transport has nothing left, the count is 1 again and the counter 10. *)
Lemma read_round_trip_witness :
  exists w',
    run 8192 4194304 14
      [ARead 1 [] 7 1000; DAllocDone None (repeat x00 64);
       ETransportRead (RSData (repeat x41 10)); DReadable None] ex_created
    = Some (Ok tt w')
    /\ heap w' !! 1%positive = Some [repeat x41 10]
    /\ rstream w' = RSData []
    /\ scheduled (events_added ex_created w') = [(7%positive, None)]
    /\ refcount (ep w') = 1
    /\ timer_armed (ep w') = false
    /\ total_bytes_read (ep w') = 10.
Proof.
  assert (A : ep_freed ex_created = false) by (vm_compute; reflexivity).
  assert (B : owner_live ex_created = true) by (vm_compute; reflexivity).
  assert (C : read_cb (ep ex_created) = None) by (vm_compute; reflexivity).
  assert (D : pend_alloc ex_created = []) by (vm_compute; reflexivity).
  assert (E : refcount (ep ex_created) <> 0).
  { assert (G : refcount (ep ex_created) = 1) by (vm_compute; reflexivity).
    rewrite G. discriminate. }
  assert (F : (0 < length (repeat x00 64) `min` length (repeat x41 10))%nat)
    by (vm_compute; lia).
  destruct (read_round_trip 8192 4194304 14 ex_created 1%positive 7%positive [] 1000
              (repeat x00 64) (repeat x41 10) A B C D E F)
    as (w' & Hr & Hh & Hrs & Hs & _ & _ & Hrc & Harm & Htot & _).
  value_in Hh (Some [repeat x41 10]). value_in Hrs (RSData (@nil byte)).
  value_in Hrc 1. value_in Htot 10.
  exists w'. split; [exact Hr|]. split; [exact Hh|]. split; [exact Hrs|].
  split; [exact Hs|]. split; [exact Hrc|]. split; [exact Harm|exact Htot].
Defined.
